(** * PoliVec_Projector: a shallow embedding of [PoliVec_Projector.py]

    The development follows the layers of the script:

    - text: [parse_vector], the [int] conversion of the header, the name
      normalisation of [read_dwnominate_csv];
    - readers: [read_vec_file], [read_vec_file_with_axes],
      [read_vec_file_as_dict], [read_dwnominate_csv];
    - numerics: [scalar_projection] on IEEE binary32 values;
    - evaluation: [evaluate_ideology_projection], [compare_among_years],
      [dict_compare_among_years].

    Python exceptions are values of [exn]; everything that [print]s appends
    an [event] to a log.  Library routines of matplotlib and scipy are not
    part of the script: they are parameters of the evaluation layer. *)

From Stdlib Require Import ZArith Bool Ascii String List Lia.
From Stdlib Require Import Floats.SpecFloat.
From stdpp Require Import base option list strings gmap fin_maps.

Local Open Scope string_scope.
Local Open Scope list_scope.
Local Open Scope Z_scope.

(** ** Exceptions, output and the evaluation monad *)

(** The Python exceptions the script can meet. *)
Inductive exn : Type :=
| ValueError
| IndexError
| KeyError
| IOError
| ZeroDivisionError.

Inductive result (A : Type) : Type :=
| Ok (a : A)
| Raise (e : exn).
Arguments Ok {A} a.
Arguments Raise {A} e.

(** binary32 and binary64 values share Stdlib's [spec_float]; the operations
    differ in precision. *)
Abbreviation float := spec_float.

(** Shapes of numpy arrays, as the tuples [ndarray.shape] returns. *)
Definition shape := list Z.

(** What the script writes to standard output, message by message. The
    payload of a message is kept structured (the text formatting of numbers
    is not modelled). *)
Inductive event : Type :=
| ShapeWarning (vocab_size embed_dim : string) (actual : shape)
| MissingScores (bionames : list string)
| FailedToGraph (cgrs_sess : Z)
| SessionMissing (cgrs_sess : Z) (names : list string)
| PrintPearson (r : float)
| PrintSpearman (rho : float)
| AveragePearson (r : float)
| AverageSpearman (rho : float).

(** A computation returns or raises, and has printed a list of messages
    by then. *)
Definition M (A : Type) : Type := result A * list event.

Definition ret {A} (a : A) : M A := (Ok a, []).
Definition raise {A} (e : exn) : M A := (Raise e, []).
Definition print (ev : event) : M unit := (Ok tt, [ev]).
Definition lift {A} (r : result A) : M A := (r, []).

Definition bind {A B} (c : M A) (k : A -> M B) : M B :=
  match c with
  | (Ok a, out) => let '(r, out') := k a in (r, out ++ out')
  | (Raise e, out) => (Raise e, out)
  end.

Notation "x <- c ;; k" := (bind c (fun x => k))
  (at level 100, c at next level, right associativity).
Notation "c ;;; k" := (bind c (fun _ => k))
  (at level 100, right associativity).
Notation "'unpack' p <- c ;; k" := (bind c (fun x => let 'p := x in k))
  (at level 100, p pattern, c at next level, right associativity).

(** [for x in xs: body x], stopping at the first exception. *)
Fixpoint for_each {A} (body : A -> M unit) (xs : list A) : M unit :=
  match xs with
  | [] => ret tt
  | x :: xs' => body x ;;; for_each body xs'
  end.

(** The same on results alone, collecting what the body returns. *)
Fixpoint map_result {A B} (f : A -> result B) (xs : list A) : result (list B) :=
  match xs with
  | [] => Ok []
  | x :: xs' =>
      match f x with
      | Raise e => Raise e
      | Ok y =>
          match map_result f xs' with
          | Raise e => Raise e
          | Ok ys => Ok (y :: ys)
          end
      end
  end.

Definition outcome {A} (c : M A) : result A := fst c.
Definition printed {A} (c : M A) : list event := snd c.

(** ** Text *)

Module Text.

(** [str.isspace] on the ASCII range: tab, line feed, vertical tab, form
    feed, carriage return, the four separators 28..31 and the space. Text
    is modelled as ASCII; bytes above 127 are never white space here. *)
Definition is_space (c : ascii) : bool :=
  let n := nat_of_ascii c in
  ((9 <=? n)%nat && (n <=? 13)%nat) || ((28 <=? n)%nat && (n <=? 32)%nat).

(** [s.split()]: the maximal runs of non-space characters, in order. *)
Fixpoint split_from (tok : list ascii) (s : string) : list string :=
  match s with
  | EmptyString =>
      match tok with
      | [] => []
      | _ => [string_of_list_ascii (rev tok)]
      end
  | String c s' =>
      if is_space c then
        match tok with
        | [] => split_from [] s'
        | _ => string_of_list_ascii (rev tok) :: split_from [] s'
        end
      else split_from (c :: tok) s'
  end.

Definition split (s : string) : list string := split_from [] s.

(** [s.strip()]: leading and trailing white space removed. *)
Fixpoint lstrip (s : string) : string :=
  match s with
  | String c s' => if is_space c then lstrip s' else s
  | EmptyString => EmptyString
  end.

Fixpoint rstrip (s : string) : string :=
  match s with
  | EmptyString => EmptyString
  | String c s' =>
      match rstrip s' with
      | EmptyString => if is_space c then EmptyString else String c EmptyString
      | t => String c t
      end
  end.

Definition strip (s : string) : string := rstrip (lstrip s).

(** [s.lower()] on ASCII letters. *)
Definition lower_ascii (c : ascii) : ascii :=
  let n := nat_of_ascii c in
  if ((65 <=? n)%nat && (n <=? 90)%nat) then ascii_of_nat (n + 32) else c.

Fixpoint lower (s : string) : string :=
  match s with
  | EmptyString => EmptyString
  | String c s' => String (lower_ascii c) (lower s')
  end.

Definition newline : ascii := ascii_of_nat 10.
Definition comma : ascii := ascii_of_nat 44.

(** [re.sub(',.*', '', s)]: every comma is deleted together with what
    follows it on its line ([.] matches anything but a line feed). The flag
    says whether a match is being consumed. *)
Fixpoint sub_comma_from (in_match : bool) (s : string) : string :=
  match s with
  | EmptyString => EmptyString
  | String c s' =>
      if in_match then
        if Ascii.eqb c newline then String c (sub_comma_from false s')
        else sub_comma_from true s'
      else if Ascii.eqb c comma then sub_comma_from true s'
      else String c (sub_comma_from false s')
  end.

Definition sub_comma (s : string) : string := sub_comma_from false s.

(** [int(s)] on a token: an optional sign, then decimal digits, groups of
    digits possibly separated by single underscores. *)
Definition digit_of (c : ascii) : option Z :=
  let n := nat_of_ascii c in
  if ((48 <=? n)%nat && (n <=? 57)%nat) then Some (Z.of_nat (n - 48)) else None.

Definition underscore : ascii := ascii_of_nat 95.

(** [after_digit] tells whether the previous character was a digit (an
    underscore is only legal there, and the literal must end in a digit). *)
Fixpoint int_digits (acc : Z) (after_digit : bool) (s : string) : option Z :=
  match s with
  | EmptyString => if after_digit then Some acc else None
  | String c s' =>
      match digit_of c with
      | Some d => int_digits (10 * acc + d) true s'
      | None =>
          if Ascii.eqb c underscore && after_digit
          then int_digits acc false s'
          else None
      end
  end.

Definition int (s : string) : result Z :=
  let body sign rest :=
    match int_digits 0 false rest with
    | Some n => Ok (sign * n)
    | None => Raise ValueError
    end in
  match s with
  | String "-" rest => body (-1) rest
  | String "+" rest => body 1 rest
  | _ => body 1 s
  end.

End Text.

Definition bind_result {A B} (r : result A) (k : A -> result B) : result B :=
  match r with
  | Ok a => k a
  | Raise e => Raise e
  end.

(** ** numpy arrays of binary32 values *)

Module F32.
Definition prec : Z := 24.
Definition emax : Z := 128.
Definition zero : float := S754_zero false.
Definition nan : float := S754_nan.
Definition add : float -> float -> float := SFadd prec emax.
Definition sub : float -> float -> float := SFsub prec emax.
Definition mul : float -> float -> float := SFmul prec emax.
Definition div : float -> float -> float := SFdiv prec emax.
Definition sqrt : float -> float := SFsqrt prec emax.
(** The binary32 value nearest to an integer. *)
Definition of_Z (n : Z) : float := binary_normalize prec emax n 0 false.
End F32.

(** The arrays the script handles have at most two dimensions. A [Mat] of
    [cols] columns keeps its rows; every row has [cols] entries. *)
Inductive ndarray : Type :=
| Scalar (x : float)
| Vec (xs : list float)
| Mat (cols : nat) (rows : list (list float)).

Definition np_shape (a : ndarray) : shape :=
  match a with
  | Scalar _ => []
  | Vec xs => [Z.of_nat (length xs)]
  | Mat cols rows => [Z.of_nat (length rows); Z.of_nat cols]
  end.

Definition shape_eqb (s1 s2 : shape) : bool := bool_decide (s1 = s2).

(** [np.array(rows)] / [np.asarray(rows)] on a Python list of equally typed
    rows: the empty list is the one-dimensional empty array, rows of one
    length make a matrix, ragged rows are refused. *)
Definition np_asarray (rows : list (list float)) : result ndarray :=
  match rows with
  | [] => Ok (Vec [])
  | r :: rest =>
      if forallb (fun r' => Nat.eqb (length r') (length r)) rest
      then Ok (Mat (length r) rows)
      else Raise ValueError
  end.

(** [np.array] on a non-empty list of rows, the two-dimensional result
    given by its rows. *)
Definition np_matrix (rows : list (list float)) : result (list (list float)) :=
  bind_result (np_asarray rows) (fun _ => Ok rows).

Section Readers.

(** [np.float32] applied to one token of text; [None] when numpy refuses
    the token (a [ValueError]). The conversion is numpy's, not the
    script's. *)
Variable float32 : string -> option float.

Definition to_float32 (tok : string) : result float :=
  match float32 tok with
  | Some x => Ok x
  | None => Raise ValueError
  end.

(** [np.array(tokens, np.float32)] on a flat list of tokens. *)
Definition np_array1 (toks : list string) : result (list float) :=
  map_result to_float32 toks.

(** [np.array(rows, np.float32)] on a list of lists of tokens. *)
Definition np_array2 (rows : list (list string)) : result ndarray :=
  match map_result np_array1 rows with
  | Raise e => Raise e
  | Ok rows' => np_asarray rows'
  end.

(** [parse_vector]: the tokens after the first, and the first token.
    A blank line has no first token. *)
Definition parse_vector (line : string) : result (list string * string) :=
  match Text.split (Text.strip line) with
  | [] => Raise IndexError
  | label :: vector => Ok (vector, label)
  end.

(** [validate_shape]: only the failed assertion is caught; a header token
    that is no integer raises out of the function. *)
Definition validate_shape (sh : shape) (vocab_size embed_dim : string) : M unit :=
  n <- lift (Text.int vocab_size) ;;
  d <- lift (Text.int embed_dim) ;;
  if shape_eqb sh [n; d] then ret tt
  else print (ShapeWarning vocab_size embed_dim sh).

(** A file is the list of its lines. [f.readline()] gives the empty string
    at the end of the file. *)
Definition file := list string.

Definition readline (f : file) : string * file :=
  match f with
  | [] => ("", [])
  | l :: rest => (l, rest)
  end.

(** The two-name unpacking of the header line. *)
Definition read_header (f : file) : result (string * string * file) :=
  let '(line, rest) := readline f in
  match Text.split (Text.strip line) with
  | [vocab_size; embed_dim] => Ok (vocab_size, embed_dim, rest)
  | _ => Raise ValueError
  end.

(** The loop [for line in f: vector, label = parse_vector(line); ...]. *)
Definition parse_lines (f : file) : result (list (list string * string)) :=
  map_result parse_vector f.

Definition read_vec_file (f : file) : M (ndarray * list string) :=
  unpack (vocab_size, embed_dim, body) <- lift (read_header f) ;;
  entries <- lift (parse_lines body) ;;
  let labels := map snd entries in
  vectors <- lift (np_array2 (map fst entries)) ;;
  validate_shape (np_shape vectors) vocab_size embed_dim ;;;
  ret (vectors, labels).

(** The first four lines are read one by one, the rest by the loop. *)
Fixpoint read_axes (n : nat) (f : file) : result (list (list string * string) * file) :=
  match n with
  | O => Ok ([], f)
  | S n' =>
      let '(line, rest) := readline f in
      match parse_vector line with
      | Raise e => Raise e
      | Ok entry =>
          match read_axes n' rest with
          | Raise e => Raise e
          | Ok (entries, rest') => Ok (entry :: entries, rest')
          end
      end
  end.

Definition read_vec_file_with_axes (f : file)
  : M (ndarray * list (list float) * list string) :=
  unpack (axes, body) <- lift (read_axes 4 f) ;;
  entries <- lift (parse_lines body) ;;
  let labels := map snd entries in
  vectors <- lift (np_array2 (map fst entries)) ;;
  axis_vectors <- lift (bind_result (map_result np_array1 (map fst axes)) np_matrix) ;;
  ret (vectors, axis_vectors, labels).

(** The loop of [read_vec_file_as_dict]: [vec_dict[label] = np.array(...)]
    line after line. *)
Fixpoint fill_dict (vec_dict : gmap string (list float)) (f : file)
  : result (gmap string (list float)) :=
  match f with
  | [] => Ok vec_dict
  | line :: rest =>
      match parse_vector line with
      | Raise e => Raise e
      | Ok (vector, label) =>
          match np_array1 vector with
          | Raise e => Raise e
          | Ok v => fill_dict (<[label := v]> vec_dict) rest
          end
      end
  end.

Definition read_vec_file_as_dict (f : file) : M (gmap string (list float)) :=
  unpack (vocab_size, embed_dim, body) <- lift (read_header f) ;;
  vec_dict <- lift (fill_dict ∅ body) ;;
  match vec_dict !! "coffee" with
  | None => raise KeyError
  | Some coffee =>
      validate_shape [Z.of_nat (size vec_dict); Z.of_nat (length coffee)]
                     vocab_size embed_dim ;;;
      ret vec_dict
  end.

End Readers.

(** ** The reference scores *)

(** A row of the DW-NOMINATE table as [csv.DictReader] hands it over; both
    columns are present. *)
Record csv_row : Type := { bioname : string; dim1 : string }.

Definition missing_tag : string := "(missing score)".

Definition truthy (s : string) : bool :=
  match s with
  | EmptyString => false
  | _ => true
  end.

Section ReferenceScores.

Variable float32 : string -> option float.

(** The loop over the rows: the score tokens, the names and the bionames
    without a score, each in row order. *)
Fixpoint csv_loop (rows : list csv_row) : list string * list string * list string :=
  match rows with
  | [] => ([], [], [])
  | row :: rest =>
      let '(ideology_scores, names, missing) := csv_loop rest in
      if truthy (dim1 row) then
        (dim1 row :: ideology_scores, bioname row :: names, missing)
      else
        ("0" :: ideology_scores,
         String.append (bioname row) missing_tag :: names,
         bioname row :: missing)
  end.

(** [re.sub(',.*', '', i).lower()] *)
Definition reformat_name (i : string) : string := Text.lower (Text.sub_comma i).

Definition read_dwnominate_csv (rows : list csv_row) : M (list float * list string) :=
  let '(ideology_scores, names, missing) := csv_loop rows in
  (match missing with
   | [] => ret tt
   | _ => print (MissingScores missing)
   end) ;;;
  ideology <- lift (np_array1 float32 ideology_scores) ;;
  ret (ideology, map reformat_name names).

End ReferenceScores.

(** ** Projection *)

(** One-dimensional [a - b] with numpy's broadcasting: equal lengths, or
    one operand of length one. *)
Definition np_sub1 (a b : list float) : result (list float) :=
  if Nat.eqb (length a) (length b) then Ok (zip_with F32.sub a b)
  else match a, b with
       | [x], _ => Ok (map (fun y => F32.sub x y) b)
       | _, [y] => Ok (map (fun x => F32.sub x y) a)
       | _, _ => Raise ValueError
       end.

(** The inner product of two vectors of one length, accumulated from the
    left. (The order in which a BLAS kernel adds the products is its own;
    the results below are either exact or do not depend on it.) *)
Definition dot1 (a b : list float) : float :=
  fold_left (fun acc p => F32.add acc (F32.mul (fst p) (snd p))) (zip a b) F32.zero.

(** [np.linalg.norm] of a one-dimensional array. *)
Definition norm (x : list float) : float := F32.sqrt (dot1 x x).

(** What [np.dot] accepts as its first argument here: an array, or a Python
    list of one-dimensional arrays, which it converts first. *)
Inductive array_like : Type :=
| PyList (rows : list (list float))
| Array (a : ndarray).

Definition asarray (v : array_like) : result ndarray :=
  match v with
  | PyList rows => np_asarray rows
  | Array a => Ok a
  end.

(** [np.dot(vectors, axis)] for a one-dimensional [axis]. *)
Definition np_dot (vectors : array_like) (axis : list float) : result ndarray :=
  match asarray vectors with
  | Raise e => Raise e
  | Ok (Scalar s) => Ok (Vec (map (F32.mul s) axis))
  | Ok (Vec xs) =>
      if Nat.eqb (length xs) (length axis) then Ok (Scalar (dot1 xs axis))
      else Raise ValueError
  | Ok (Mat cols rows) =>
      if Nat.eqb cols (length axis) then Ok (Vec (map (fun v => dot1 v axis) rows))
      else Raise ValueError
  end.

(** [axis_vectors[i]] on a two-dimensional array given by its rows. *)
Definition row (axis_vectors : list (list float)) (i : nat) : result (list float) :=
  match axis_vectors !! i with
  | Some r => Ok r
  | None => Raise IndexError
  end.

(** Lines 126-127 (and again 128-129) of the script: the difference of the
    two anchors divided by its norm. A division by a zero norm is no
    exception in numpy: it gives NaN or an infinity entry by entry. *)
Definition build_axis (positive negative : list float) : result (list float) :=
  match np_sub1 positive negative with
  | Raise e => Raise e
  | Ok axis => Ok (map (fun x => F32.div x (norm axis)) axis)
  end.

(** [axis_vectors] is, at every call, what [np.array] made of four rows. *)
Definition scalar_projection (vectors : array_like) (axis_vectors : list (list float))
  : result (ndarray * ndarray) :=
  bind_result (row axis_vectors 0) (fun a0 =>
  bind_result (row axis_vectors 1) (fun a1 =>
  bind_result (build_axis a0 a1) (fun x_axis =>
  bind_result (row axis_vectors 2) (fun a2 =>
  bind_result (row axis_vectors 3) (fun a3 =>
  bind_result (build_axis a2 a3) (fun y_axis =>
  bind_result (np_dot vectors x_axis) (fun x_proj =>
  bind_result (np_dot vectors y_axis) (fun y_proj =>
  Ok (x_proj, y_proj))))))))).

(** ** Evaluation against the reference scores *)

Module F64.
Definition prec : Z := 53.
Definition emax : Z := 1024.
Definition add : float -> float -> float := SFadd prec emax.
Definition div : float -> float -> float := SFdiv prec emax.
Definition of_Z (n : Z) : float := binary_normalize prec emax n 0 false.
End F64.

(** The accumulators start as the Python integer [0] and become binary64
    numbers with the first coefficient added. *)
Inductive pynum : Type :=
| PyInt (n : Z)
| PyFloat (x : float).

Definition to_float (a : pynum) : float :=
  match a with
  | PyInt n => F64.of_Z n
  | PyFloat x => x
  end.

(** [a += x] for a coefficient [x]. *)
Definition py_add (a : pynum) (x : float) : pynum := PyFloat (F64.add (to_float a) x).

(** [a / b] for an integer [b]. Two integers divide truly, and a zero
    divisor raises; the accumulator is an integer only while it is [0], where
    the quotient of the converted operands is the true one. *)
Definition py_truediv (a : pynum) (b : Z) : result float :=
  match a with
  | PyInt n =>
      if b =? 0 then Raise ZeroDivisionError
      else Ok (F64.div (F64.of_Z n) (F64.of_Z b))
  | PyFloat x => Ok (F64.div x (F64.of_Z b))
  end.

(** [range(start, end)] *)
Definition range (start stop : Z) : list Z := seqZ start (stop - start).

(** What the script calls and does not define: numpy's conversion of a
    token, matplotlib behind [scatter_plot] (its outcome as a function of
    the coordinates and labels; title, captions and [save_dir] are
    presentation), and the first component of what [stats.pearsonr] and
    [stats.mstats.spearmanr] return. The files are given by what opening
    them yields: the member table of a session, [None] when it cannot be
    opened. *)
Record externals : Type := {
  float32 : string -> option float;
  scatter_plot : ndarray -> list float -> list string -> result unit;
  pearsonr : ndarray -> list float -> result float;
  spearmanr : ndarray -> list float -> result float;
  members_csv : Z -> option (list csv_row)
}.

Definition open {A} (f : option A) : result A :=
  match f with
  | Some a => Ok a
  | None => Raise IOError
  end.

Section Evaluation.

Variable ext : externals.

Definition evaluate_ideology_projection (vec_file : option file) (cgrs_sess : Z)
  : M (float * float) :=
  rows <- lift (open (members_csv ext cgrs_sess)) ;;
  unpack (ideology, names) <- read_dwnominate_csv (float32 ext) rows ;;
  f <- lift (open vec_file) ;;
  unpack (vectors, axis_vectors, _) <- read_vec_file_with_axes (float32 ext) f ;;
  unpack (x_proj, _) <- lift (scalar_projection (Array vectors) axis_vectors) ;;
  (match scatter_plot ext x_proj ideology names with
   | Raise ValueError => print (FailedToGraph cgrs_sess)
   | r => lift r
   end) ;;;
  pearson <- lift (pearsonr ext x_proj ideology) ;;
  spearman <- lift (spearmanr ext x_proj ideology) ;;
  ret (pearson, spearman).

(** The two closing [print]s of both drivers. *)
Definition print_averages (sum_pearson sum_spearman : pynum) (start stop : Z) : M unit :=
  avg_pearson <- lift (py_truediv sum_pearson (stop - start)) ;;
  print (AveragePearson avg_pearson) ;;;
  avg_spearman <- lift (py_truediv sum_spearman (stop - start)) ;;
  print (AverageSpearman avg_spearman).

(** The loop of [compare_among_years] over the sessions still to do, from
    the sums so far. [vec_file s] is the file that [vec_file.format(s)]
    names. *)
Fixpoint compare_loop (vec_file : Z -> option file) (sessions : list Z)
    (sum_pearson sum_spearman : pynum) : M (pynum * pynum) :=
  match sessions with
  | [] => ret (sum_pearson, sum_spearman)
  | cgrs_sess :: rest =>
      unpack (pearson, spearman) <- evaluate_ideology_projection (vec_file cgrs_sess) cgrs_sess ;;
      print (PrintPearson pearson) ;;;
      print (PrintSpearman spearman) ;;;
      compare_loop vec_file rest (py_add sum_pearson pearson) (py_add sum_spearman spearman)
  end.

Definition compare_among_years (vec_file : Z -> option file) (start stop : Z) : M unit :=
  unpack (sum_pearson, sum_spearman) <-
    compare_loop vec_file (range start stop) (PyInt 0) (PyInt 0) ;;
  print_averages sum_pearson sum_spearman start stop.

(** *** The shared dictionary *)

Definition axis : list string := ["conservative"; "liberal"; "good"; "bad"].

Definition getitem (vec_dict : gmap string (list float)) (k : string) : result (list float) :=
  match vec_dict !! k with
  | Some v => Ok v
  | None => Raise KeyError
  end.

(** The loop over [enumerate(senators)], from index [i] on: labels,
    vectors and scores of the senators the dictionary knows. *)
Fixpoint in_vocab (vec_dict : gmap string (list float)) (ideology : list float)
    (i : nat) (senators : list string)
  : result (list string * list (list float) * list float) :=
  match senators with
  | [] => Ok ([], [], [])
  | senator :: rest =>
      match vec_dict !! senator with
      | Some v =>
          match ideology !! i with
          | None => Raise IndexError
          | Some score =>
              bind_result (in_vocab vec_dict ideology (S i) rest) (fun '(labels, vecs, scores) =>
              Ok (senator :: labels, v :: vecs, score :: scores))
          end
      | None => in_vocab vec_dict ideology (S i) rest
      end
  end.

(** [w in labels] *)
Definition contains (labels : list string) (w : string) : bool :=
  existsb (String.eqb w) labels.

(** One turn of the loop of [dict_compare_among_years], up to the two
    coefficients. *)
Definition dict_session (vec_dict : gmap string (list float))
    (axis_vectors : list (list float)) (cgrs_sess : Z) : M (float * float) :=
  rows <- lift (open (members_csv ext cgrs_sess)) ;;
  unpack (ideology, senators) <- read_dwnominate_csv (float32 ext) rows ;;
  unpack (in_vocab_labels, in_vocab_vec, in_vocab_score) <-
    lift (in_vocab vec_dict ideology 0 senators) ;;
  let missing := List.filter (fun w => negb (contains in_vocab_labels w)) senators in
  (match missing with
   | [] => ret tt
   | _ => print (SessionMissing cgrs_sess missing)
   end) ;;;
  unpack (x_proj, _) <- lift (scalar_projection (PyList in_vocab_vec) axis_vectors) ;;
  lift (scatter_plot ext x_proj in_vocab_score in_vocab_labels) ;;;
  pearson <- lift (pearsonr ext x_proj in_vocab_score) ;;
  spearman <- lift (spearmanr ext x_proj in_vocab_score) ;;
  ret (pearson, spearman).

Fixpoint dict_loop (vec_dict : gmap string (list float))
    (axis_vectors : list (list float)) (sessions : list Z)
    (sum_pearson sum_spearman : pynum) : M (pynum * pynum) :=
  match sessions with
  | [] => ret (sum_pearson, sum_spearman)
  | cgrs_sess :: rest =>
      unpack (pearson, spearman) <- dict_session vec_dict axis_vectors cgrs_sess ;;
      print (PrintPearson pearson) ;;;
      print (PrintSpearman spearman) ;;;
      dict_loop vec_dict axis_vectors rest
        (py_add sum_pearson pearson) (py_add sum_spearman spearman)
  end.

Definition dict_compare_among_years (vec_dict : gmap string (list float))
    (start stop : Z) : M unit :=
  axis_vectors <- lift (bind_result (map_result (getitem vec_dict) axis) np_matrix) ;;
  unpack (sum_pearson, sum_spearman) <-
    dict_loop vec_dict axis_vectors (range start stop) (PyInt 0) (PyInt 0) ;;
  print_averages sum_pearson sum_spearman start stop.

End Evaluation.

(** ** Vocabulary of the statements *)

(** One line of a vector file as [read_vec_file_as_dict] takes it in: the
    label with its converted vector. *)
Definition parse_entry (float32 : string -> option float) (line : string)
  : result (string * list float) :=
  bind_result (parse_vector line) (fun '(vector, label) =>
  bind_result (np_array1 float32 vector) (fun v => Ok (label, v))).

(** The vector of the last line that carries [label], if any line does. *)
Fixpoint last_with (label : string) (entries : list (string * list float))
  : option (list float) :=
  match entries with
  | [] => None
  | (l, v) :: rest =>
      match last_with label rest with
      | Some w => Some w
      | None => if String.eqb l label then Some v else None
      end
  end.

(** The dictionary after the assignments [vec_dict[label] = v], in order. *)
Definition assign_all (entries : list (string * list float))
    (vec_dict : gmap string (list float)) : gmap string (list float) :=
  fold_left (fun d e => <[fst e := snd e]> d) entries vec_dict.

(** ** A conversion of tokens for the examples *)

(** Integer literals of at most fifteen digits, an optional sign first: on
    these numpy's conversion is the binary32 value nearest to the integer.
    The examples below only hold such tokens. *)
Fixpoint plain_digits (acc : Z) (s : string) : option Z :=
  match s with
  | EmptyString => Some acc
  | String c s' =>
      match Text.digit_of c with
      | Some d => plain_digits (10 * acc + d) s'
      | None => None
      end
  end.

Definition float32_literal (tok : string) : option float :=
  let body (negative : bool) (digits : string) :=
    match digits with
    | EmptyString => None
    | _ =>
        if (String.length digits <=? 15)%nat then
          match plain_digits 0 digits with
          | Some 0 => Some (S754_zero negative)
          | Some n => Some (F32.of_Z (if negative then - n else n))
          | None => None
          end
        else None
    end in
  match tok with
  | String "-" rest => body true rest
  | String "+" rest => body false rest
  | _ => body false tok
  end.

(** ** Files and tables of the examples *)

Definition duplicate_labels_file : file :=
  ["3 2
"; "coffee 1 0
"; "tea 0 1
"; "coffee 2 2
"].

Definition no_coffee_file : file :=
  ["2 2
"; "tea 1 0
"; "milk 0 1
"].

(** A ragged vocabulary: the 'coffee' vector has the declared length, the
    other one does not, and no warning is printed. *)
Definition ragged_coffee_file : file :=
  ["2 2
"; "tea 1 0 5 7
"; "coffee 0 1
"].

(** The header declares three vectors of two numbers; the file has two
    vectors of three numbers. *)
Definition corrupted_header_file : file :=
  ["3 2
"; "alice 1 0 0
"; "bob 0 1 0
"].

Definition smith_row : csv_row := {| bioname := "SMITH, John"; dim1 := "" |}.

(** ** The projection in the words of its description *)

(** [normalize(positive - negative)]: the entrywise difference divided by
    its Euclidean norm. *)
Definition unit_axis (positive negative : list float) : list float :=
  let difference := zip_with F32.sub positive negative in
  let euclidean_norm := F32.sqrt (dot1 difference difference) in
  map (fun x => F32.div x euclidean_norm) difference.

(** For each vector its inner product with the unit axis. *)
Definition projections (vectors : list (list float)) (unit : list float) : list float :=
  map (fun v => dot1 v unit) vectors.

(** The end-to-end scenario: alice, bob, carol and the four anchors. *)
Definition scenario_vectors : list (list float) :=
  [[F32.of_Z 1; F32.zero]; [F32.zero; F32.of_Z 1]; [F32.of_Z (-1); F32.zero]].

Definition scenario_anchors : list (list float) :=
  [[F32.of_Z 1; F32.zero]; [F32.of_Z (-1); F32.zero];
   [F32.zero; F32.of_Z 1]; [F32.zero; F32.of_Z (-1)]].

(** The values a difference [x - x] can take: positive zero, or NaN when
    [x] is an infinity or a NaN. *)
Definition zero_or_nan (x : float) : Prop := x = F32.zero \/ x = F32.nan.

(** ** Vocabulary of the evaluation statements *)

(** The two coefficients, Pearson's first: what the evaluators return once
    the plot is behind them. *)
Definition correlate (ext : externals) (x_proj : ndarray) (scores : list float)
  : result (float * float) :=
  bind_result (pearsonr ext x_proj scores) (fun pearson =>
  bind_result (spearmanr ext x_proj scores) (fun spearman =>
  Ok (pearson, spearman))).

(** The pairs of a session that the dictionary covers: name, vector and
    score of every reference name that is a key, in the order of the table. *)
Fixpoint retained (vec_dict : gmap string (list float))
    (senators : list string) (ideology : list float)
  : list (string * list float * float) :=
  match senators, ideology with
  | senator :: senators', score :: ideology' =>
      match vec_dict !! senator with
      | Some v => (senator, v, score) :: retained vec_dict senators' ideology'
      | None => retained vec_dict senators' ideology'
      end
  | _, _ => []
  end.

(** [w] is a key of the dictionary. *)
Definition known (vec_dict : gmap string (list float)) (w : string) : bool :=
  bool_decide (is_Some (vec_dict !! w)).

(** The reference names that are no key of the dictionary. *)
Definition absent (vec_dict : gmap string (list float)) (senators : list string)
  : list string :=
  List.filter (fun w => negb (known vec_dict w)) senators.

Definition report_missing (cgrs_sess : Z) (missing : list string) : list event :=
  match missing with
  | [] => []
  | _ => [SessionMissing cgrs_sess missing]
  end.

Definition is_average (ev : event) : bool :=
  match ev with
  | AveragePearson _ | AverageSpearman _ => true
  | _ => false
  end.

(** The sums of the coefficients of the sessions done, from the integer 0. *)
Definition sum_of (coefficients : list float) : pynum :=
  fold_left py_add coefficients (PyInt 0).

(** ** Stand-ins for matplotlib and scipy in the examples *)

Definition sample_size (x : ndarray) : nat :=
  match x with
  | Scalar _ => 1
  | Vec xs => length xs
  | Mat _ rows => length rows
  end.

(** matplotlib refuses coordinates of different sizes with [ValueError]. *)
Definition plot_same_size (x : ndarray) (y : list float) (labels : list string)
  : result unit :=
  if Nat.eqb (sample_size x) (length y) then Ok tt else Raise ValueError.

(** scipy's routines refuse samples of different sizes and fewer than two
    pairs with [ValueError]. The coefficient itself plays no part in what
    follows; the stand-in answers [value] on every sample it accepts. *)
Definition coefficient_checked (value : float) (x : ndarray) (y : list float)
  : result float :=
  if Nat.eqb (sample_size x) (length y) && (2 <=? length y)%nat
  then Ok value else Raise ValueError.

Definition one64 : float := F64.of_Z 1.

Definition checked_externals (tables : Z -> option (list csv_row)) : externals :=
  {| float32 := float32_literal;
     scatter_plot := plot_same_size;
     pearsonr := coefficient_checked one64;
     spearmanr := coefficient_checked one64;
     members_csv := tables |}.

(** The same with arbitrary routines. *)
Definition externals_with
    (plot : ndarray -> list float -> list string -> result unit)
    (pearson spearman : ndarray -> list float -> result float)
    (tables : Z -> option (list csv_row)) : externals :=
  {| float32 := float32_literal;
     scatter_plot := plot;
     pearsonr := pearson;
     spearmanr := spearman;
     members_csv := tables |}.

Definition name_of (p : string * list float * float) : string := fst (fst p).
Definition vector_of (p : string * list float * float) : list float := snd (fst p).
Definition score_of (p : string * list float * float) : float := snd p.

(** ** The scenarios of the examples *)

Definition every_session (table : list csv_row) : Z -> option (list csv_row) :=
  fun _ => Some table.

(** Three reference names, of which the dictionary knows two. *)
Definition abd_table : list csv_row :=
  [ {| bioname := "ALICE, A."; dim1 := "1" |};
    {| bioname := "BOB, B."; dim1 := "-1" |};
    {| bioname := "DAVE, D."; dim1 := "1" |} ].

Definition anchor_entries : list (string * list float) :=
  [ ("conservative", [F32.of_Z 1; F32.zero]); ("liberal", [F32.of_Z (-1); F32.zero]);
    ("good", [F32.zero; F32.of_Z 1]); ("bad", [F32.zero; F32.of_Z (-1)]) ].

Definition ab_dict : gmap string (list float) :=
  assign_all (anchor_entries ++
              [("alice", [F32.of_Z 1; F32.zero]); ("bob", [F32.zero; F32.of_Z 1])]) ∅.

(** A dictionary that knows the anchors and no senator. *)
Definition anchors_only_dict : gmap string (list float) := assign_all anchor_entries ∅.

(** No average is announced by [ev]. *)
Definition quiet (ev : event) : Prop := is_average ev = false.

(** The session is evaluated, with coefficients [c]. *)
Definition evaluated (ext : externals) (vec_file : Z -> option file)
    (cgrs_sess : Z) (c : float * float) : Prop :=
  outcome (evaluate_ideology_projection ext (vec_file cgrs_sess) cgrs_sess) = Ok c.

(** The evaluation of the session raises. *)
Definition fails (ext : externals) (vec_file : Z -> option file) (cgrs_sess : Z) : Prop :=
  exists e,
    outcome (evaluate_ideology_projection ext (vec_file cgrs_sess) cgrs_sess) = Raise e.

(** The four anchor lines that open a file of the file mode. *)
Definition anchor_lines : file :=
  ["conservative 1 0
"; "liberal -1 0
"; "good 0 1
"; "bad 0 -1
"].

Definition three_vector_file : file :=
  anchor_lines ++ ["alice 1 0
"; "bob 0 1
"; "carol -1 0
"].

Definition two_vector_file : file :=
  anchor_lines ++ ["alice 1 0
"; "bob -1 0
"].

Definition one_vector_file : file :=
  anchor_lines ++ ["alice 1 0
"].

Definition two_row_table : list csv_row :=
  [ {| bioname := "ALICE, A."; dim1 := "1" |};
    {| bioname := "BOB, B."; dim1 := "-1" |} ].

Definition one_row_table : list csv_row :=
  [ {| bioname := "ALICE, A."; dim1 := "1" |} ].

(** Five cohorts, 1 to 5; the third has a single paired sample. *)
Definition five_cohort_files (cgrs_sess : Z) : option file :=
  if cgrs_sess =? 3 then Some one_vector_file else Some two_vector_file.

Definition five_cohort_tables (cgrs_sess : Z) : option (list csv_row) :=
  if cgrs_sess =? 3 then Some one_row_table else Some two_row_table.

(** Routines that answer NaN on fewer than two pairs instead of raising. *)
Definition coefficient_or_nan (value : float) (x : ndarray) (y : list float)
  : result float :=
  if Nat.eqb (sample_size x) (length y)
  then Ok (if (2 <=? length y)%nat then value else S754_nan)
  else Raise ValueError.

(** The session of the dictionary mode raises. *)
Definition dict_fails (ext : externals) (vec_dict : gmap string (list float))
    (axis_vectors : list (list float)) (cgrs_sess : Z) : Prop :=
  exists e, outcome (dict_session ext vec_dict axis_vectors cgrs_sess) = Raise e.

(** ** The projection of free queries *)

(** ['#' in w] *)
Definition hash : ascii := ascii_of_nat 35.

Fixpoint has_char (c : ascii) (s : string) : bool :=
  match s with
  | EmptyString => false
  | String c' s' => Ascii.eqb c' c || has_char c s'
  end.

(** The comprehension of [project_queries] over the lines of the query
    file: a line that is the bare line feed, or that holds a ['#'] anywhere,
    is passed over; the others are stripped. *)
Definition skipped (w : string) : bool :=
  String.eqb w (String Text.newline EmptyString) || has_char hash w.

Definition read_queries (f : file) : list string :=
  map Text.strip (List.filter (fun w => negb (skipped w)) f).

(** [pretrained_model[i]]: the vector of a word, or [KeyError]. The model
    is an argument of the two functions below. *)
Definition model_getitem (pretrained_model : string -> option (list float)) (i : string)
  : result (list float) :=
  match pretrained_model i with
  | Some v => Ok v
  | None => Raise KeyError
  end.

(** [query_fasttext_wrapper]: the vectors of the queries, then those of the
    axes, each list made an array as soon as it is complete. *)
Definition query_fasttext_wrapper (pretrained_model : string -> option (list float))
    (queries axes : list string) : result (ndarray * list (list float)) :=
  bind_result (map_result (model_getitem pretrained_model) queries) (fun vectors =>
  bind_result (np_asarray vectors) (fun vectors =>
  bind_result (map_result (model_getitem pretrained_model) axes) (fun axis_vectors =>
  bind_result (np_matrix axis_vectors) (fun axis_vectors =>
  Ok (vectors, axis_vectors))))).

(** [project_queries]; [plot] stands for [scatter_plot] on two arrays of
    projections. *)
Definition project_queries
    (plot : ndarray -> ndarray -> list string -> result unit)
    (pretrained_model : string -> option (list float)) (query_file : option file)
  : result unit :=
  bind_result (open query_file) (fun f =>
  let queries := read_queries f in
  bind_result (query_fasttext_wrapper pretrained_model queries axis) (fun '(vectors, axis_vectors) =>
  bind_result (scalar_projection (Array vectors) axis_vectors) (fun '(x_proj, y_proj) =>
  plot x_proj y_proj queries))).

(** ** Vocabulary of the statements on text *)

(** What [split] emits for the token under construction at the end of a
    run of non-space characters. *)
Definition flush (tok : list ascii) : list string :=
  match tok with
  | [] => []
  | _ => [string_of_list_ascii (rev tok)]
  end.


Definition all_space (s : string) : Prop :=
  Forall (fun c => Text.is_space c = true) (list_ascii_of_string s).



(** ** Vocabulary of the statements on the reference table *)

(** The token that stands for the score of a row. *)
Definition score_token (r : csv_row) : string :=
  if truthy (dim1 r) then dim1 r else "0".

(** The name of a row before it is cut and lowered. *)
Definition raw_name (r : csv_row) : string :=
  if truthy (dim1 r) then bioname r else String.append (bioname r) missing_tag.

(** The bionames of the rows without a score, in the order of the table. *)
Definition unscored (rows : list csv_row) : list string :=
  map bioname (List.filter (fun r => negb (truthy (dim1 r))) rows).

Definition report_unscored (rows : list csv_row) : list event :=
  match unscored rows with
  | [] => []
  | missing => [MissingScores missing]
  end.

Definition is_upper (c : ascii) : bool :=
  let n := nat_of_ascii c in (65 <=? n)%nat && (n <=? 90)%nat.

Fixpoint all_chars (p : ascii -> bool) (s : string) : bool :=
  match s with
  | EmptyString => true
  | String c s' => p c && all_chars p s'
  end.

(** A dictionary that knows the anchors and smith. *)
Definition smith_dict : gmap string (list float) :=
  assign_all (anchor_entries ++ [("smith", [F32.of_Z 1; F32.zero])]) ∅.

(** ** Vocabulary of the statements on the drivers *)

(** What a driver prints for one session that is evaluated: the messages of
    the session, then its two coefficients. *)
Definition session_lines (messages : list event) (c : float * float) : list event :=
  messages ++ [PrintPearson (fst c); PrintSpearman (snd c)].

(** The same over the sessions done, in order. *)
Definition file_trace (ext : externals) (vec_file : Z -> option file)
    (sessions : list Z) (coeffs : list (float * float)) : list event :=
  concat (zip_with
            (fun s c =>
               session_lines
                 (printed (evaluate_ideology_projection ext (vec_file s) s)) c)
            sessions coeffs).

Definition dict_trace (ext : externals) (vec_dict : gmap string (list float))
    (axis_vectors : list (list float))
    (sessions : list Z) (coeffs : list (float * float)) : list event :=
  concat (zip_with
            (fun s c =>
               session_lines (printed (dict_session ext vec_dict axis_vectors s)) c)
            sessions coeffs).

(** The session of the dictionary mode is evaluated, with coefficients [c]. *)
Definition dict_evaluated (ext : externals) (vec_dict : gmap string (list float))
    (axis_vectors : list (list float)) (cgrs_sess : Z) (c : float * float) : Prop :=
  outcome (dict_session ext vec_dict axis_vectors cgrs_sess) = Ok c.

(** The two closing lines of a run over [start] to [stop]. *)
Definition average_lines (coeffs : list (float * float)) (start stop : Z) : list event :=
  [AveragePearson (F64.div (to_float (sum_of (map fst coeffs))) (F64.of_Z (stop - start)));
   AverageSpearman (F64.div (to_float (sum_of (map snd coeffs))) (F64.of_Z (stop - start)))].

(** The loop the two drivers share, over any way of evaluating a session. *)
Fixpoint sessions_loop (session : Z -> M (float * float)) (sessions : list Z)
    (sum_pearson sum_spearman : pynum) : M (pynum * pynum) :=
  match sessions with
  | [] => ret (sum_pearson, sum_spearman)
  | cgrs_sess :: rest =>
      unpack (pearson, spearman) <- session cgrs_sess ;;
      print (PrintPearson pearson) ;;;
      print (PrintSpearman spearman) ;;;
      sessions_loop session rest (py_add sum_pearson pearson) (py_add sum_spearman spearman)
  end.

Definition loop_trace (session : Z -> M (float * float))
    (sessions : list Z) (coeffs : list (float * float)) : list event :=
  concat (zip_with (fun s c => session_lines (printed (session s)) c) sessions coeffs).

(** A dictionary whose anchor 'bad' has three components, the others two. *)
Definition ragged_anchor_dict : gmap string (list float) :=
  <["bad" := [F32.zero; F32.of_Z (-1); F32.zero]]> ab_dict.

(** A plot that fails with [e]. *)
Definition plot_raising (e : exn) (x : ndarray) (y : list float) (labels : list string)
  : result unit := Raise e.


(** * Properties *)

(** ** Sanity checks of the text layer *)

Example split_example :
  Text.split " alice  1 0
" = ["alice"; "1"; "0"].
Proof. reflexivity. Qed.

Example strip_example : Text.strip "  3 2
" = "3 2".
Proof. reflexivity. Qed.

Example sub_comma_example :
  Text.lower (Text.sub_comma "MOYNIHAN, Daniel Patrick") = "moynihan".
Proof. reflexivity. Qed.

Example int_examples :
  Text.int "42" = Ok 42 /\ Text.int "-7" = Ok (-7) /\ Text.int "1_000" = Ok 1000
  /\ Text.int "x" = Raise ValueError /\ Text.int "" = Raise ValueError
  /\ Text.int "1__0" = Raise ValueError /\ Text.int "007" = Ok 7.
Proof. repeat split; reflexivity. Qed.


Example float32_literal_examples :
  float32_literal "1" = Some (S754_finite false 8388608 (-23))
  /\ float32_literal "-1" = Some (S754_finite true 8388608 (-23))
  /\ float32_literal "0" = Some (S754_zero false)
  /\ float32_literal "2" = Some (S754_finite false 8388608 (-22))
  /\ float32_literal "x" = None.
Proof. repeat split; reflexivity. Qed.

(** ** The evaluation monad *)

Lemma bind_ok {A B} (a : A) (out : list event) (k : A -> M B) :
  bind (Ok a, out) k = (fst (k a), out ++ snd (k a)).
Proof. unfold bind. destruct (k a); reflexivity. Qed.

Lemma bind_lift_ok {A B} (a : A) (k : A -> M B) : bind (lift (Ok a)) k = k a.
Proof. unfold lift. rewrite bind_ok. destruct (k a); reflexivity. Qed.

Lemma bind_lift_raise {A B} (e : exn) (k : A -> M B) :
  bind (lift (Raise e)) k = (Raise e, []).
Proof. reflexivity. Qed.

Lemma bind_ret {A B} (a : A) (k : A -> M B) : bind (ret a) k = k a.
Proof. apply bind_lift_ok. Qed.

Lemma bind_print {B} (ev : event) (k : unit -> M B) :
  bind (print ev) k = (fst (k tt), ev :: snd (k tt)).
Proof. unfold print. rewrite bind_ok. reflexivity. Qed.

(** ** The dictionary reader *)

Section DictReader.

Variable float32 : string -> option float.

Lemma fill_dict_entries (body : file) (d : gmap string (list float)) :
  fill_dict float32 d body =
  bind_result (map_result (parse_entry float32) body) (fun es => Ok (assign_all es d)).
Proof.
  revert d. induction body as [|line rest IH]; intros d; simpl; [reflexivity|].
  unfold parse_entry at 1.
  destruct (parse_vector line) as [[vector label]|e]; simpl; [|reflexivity].
  destruct (np_array1 float32 vector) as [v|e]; simpl; [|reflexivity].
  rewrite IH.
  destruct (map_result (parse_entry float32) rest); reflexivity.
Qed.

Lemma assign_all_lookup (es : list (string * list float))
    (d : gmap string (list float)) (l : string) :
  assign_all es d !! l =
  match last_with l es with
  | Some v => Some v
  | None => d !! l
  end.
Proof.
  revert d. induction es as [|[l' v] rest IH]; intros d; simpl; [reflexivity|].
  unfold assign_all in *. simpl. rewrite IH.
  destruct (last_with l rest); [reflexivity|].
  destruct (String.eqb_spec l' l) as [->|Hne].
  - apply lookup_insert_eq.
  - apply lookup_insert_ne. exact Hne.
Qed.

Lemma read_header_cons (header : string) (body : file) (vs ed : string) :
  Text.split (Text.strip header) = [vs; ed] ->
  read_header (header :: body) = Ok (vs, ed, body).
Proof. intros H. unfold read_header. simpl. rewrite H. reflexivity. Qed.

Lemma validate_shape_ints (sh : shape) (vs ed : string) (n d : Z) :
  Text.int vs = Ok n -> Text.int ed = Ok d ->
  validate_shape sh vs ed =
  (Ok tt, if shape_eqb sh [n; d] then [] else [ShapeWarning vs ed sh]).
Proof.
  intros Hn Hd. unfold validate_shape. rewrite Hn, bind_lift_ok, Hd, bind_lift_ok.
  destruct (shape_eqb sh [n; d]); reflexivity.
Qed.

(** What [read_vec_file_as_dict] does on a file whose header unpacks and
    whose lines all parse. *)
Lemma read_vec_file_as_dict_parsed (header : string) (body : file) (vs ed : string)
    (entries : list (string * list float)) :
  Text.split (Text.strip header) = [vs; ed] ->
  map_result (parse_entry float32) body = Ok entries ->
  read_vec_file_as_dict float32 (header :: body) =
  match last_with "coffee" entries with
  | None => (Raise KeyError, [])
  | Some coffee =>
      bind (validate_shape [Z.of_nat (size (assign_all entries ∅)); Z.of_nat (length coffee)]
                           vs ed)
           (fun _ => ret (assign_all entries ∅))
  end.
Proof.
  intros Hh Hb. unfold read_vec_file_as_dict.
  rewrite (read_header_cons _ _ _ _ Hh), bind_lift_ok.
  rewrite fill_dict_entries, Hb. simpl bind_result. rewrite bind_lift_ok.
  rewrite assign_all_lookup, lookup_empty.
  destruct (last_with "coffee" entries); reflexivity.
Qed.

End DictReader.

Lemma last_with_None (label : string) (entries : list (string * list float)) :
  last_with label entries = None <-> label ∉ map fst entries.
Proof.
  induction entries as [|[l v] rest IH]; simpl.
  - split; [intros _; apply not_elem_of_nil | reflexivity].
  - rewrite not_elem_of_cons. destruct (last_with label rest) as [w|].
    + split; [discriminate|]. intros [_ Hrest]. apply IH in Hrest. discriminate.
    + destruct (String.eqb_spec l label) as [->|Hne].
      * split; [discriminate|]. intros [Hne _]. contradiction.
      * split; [|reflexivity]. intros _. split; [congruence|]. apply IH. reflexivity.
Qed.

(** C9. When the header unpacks to two integers, every line parses and
    some line is labelled 'coffee', [read_vec_file_as_dict] returns a
    mapping that holds, for every label, the vector of the LAST line with
    that label (and nothing for a label no line has); earlier lines with the
    label leave no trace, and nothing but the shape check is printed. *)
Theorem read_vec_file_as_dict_last_write_wins
    (float32 : string -> option float) (header : string) (body : file)
    (vs ed : string) (n d : Z) (entries : list (string * list float))
    (coffee : list float) :
  Text.split (Text.strip header) = [vs; ed] ->
  Text.int vs = Ok n ->
  Text.int ed = Ok d ->
  map_result (parse_entry float32) body = Ok entries ->
  last_with "coffee" entries = Some coffee ->
  exists vec_dict : gmap string (list float),
    read_vec_file_as_dict float32 (header :: body) =
      (Ok vec_dict,
       if shape_eqb [Z.of_nat (size vec_dict); Z.of_nat (length coffee)] [n; d]
       then [] else [ShapeWarning vs ed [Z.of_nat (size vec_dict); Z.of_nat (length coffee)]])
    /\ forall label, vec_dict !! label = last_with label entries.
Proof.
  intros Hh Hn Hd Hb Hc. exists (assign_all entries ∅). split.
  - rewrite (read_vec_file_as_dict_parsed _ _ _ _ _ _ Hh Hb), Hc.
    rewrite (validate_shape_ints _ _ _ _ _ Hn Hd), bind_ok. simpl.
    rewrite app_nil_r. reflexivity.
  - intros label. rewrite assign_all_lookup, lookup_empty.
    destruct (last_with label entries); reflexivity.
Qed.

Lemma read_vec_file_as_dict_last_write_wins_witness :
  exists vec_dict : gmap string (list float),
    outcome (read_vec_file_as_dict float32_literal duplicate_labels_file) = Ok vec_dict
    /\ vec_dict !! "coffee" = Some [F32.of_Z 2; F32.of_Z 2]
    /\ vec_dict !! "tea" = Some [F32.zero; F32.of_Z 1]
    /\ vec_dict !! "milk" = None.
Proof.
  destruct (read_vec_file_as_dict_last_write_wins float32_literal
              "3 2
" (tail duplicate_labels_file) "3" "2" 3 2
              [("coffee", [F32.of_Z 1; F32.zero]); ("tea", [F32.zero; F32.of_Z 1]);
               ("coffee", [F32.of_Z 2; F32.of_Z 2])]
              [F32.of_Z 2; F32.of_Z 2]
              eq_refl eq_refl eq_refl eq_refl eq_refl) as [vec_dict [Hread Hlast]].
  exists vec_dict. split.
  - change duplicate_labels_file with ("3 2
" :: tail duplicate_labels_file). rewrite Hread. reflexivity.
  - rewrite !Hlast. repeat split; reflexivity.
Defined.

(** C10. The shape check of [read_vec_file_as_dict] looks the mapping up
    at the key 'coffee'. On a file whose header unpacks and whose lines all
    parse: if no line is labelled 'coffee' the call raises [KeyError] and
    returns no mapping (whatever the header says); if some line is, the
    mapping is returned and the warning is decided by comparing the header
    with the number of keys and the length of the 'coffee' vector alone. *)
Theorem read_vec_file_as_dict_coffee
    (float32 : string -> option float) (header : string) (body : file)
    (vs ed : string) (entries : list (string * list float)) :
  Text.split (Text.strip header) = [vs; ed] ->
  map_result (parse_entry float32) body = Ok entries ->
  ("coffee" ∉ map fst entries ->
     read_vec_file_as_dict float32 (header :: body) = (Raise KeyError, []))
  /\ (forall (coffee : list float) (n d : Z),
        last_with "coffee" entries = Some coffee ->
        Text.int vs = Ok n -> Text.int ed = Ok d ->
        let checked := [Z.of_nat (size (assign_all entries ∅)); Z.of_nat (length coffee)] in
        read_vec_file_as_dict float32 (header :: body) =
          (Ok (assign_all entries ∅),
           if shape_eqb checked [n; d] then [] else [ShapeWarning vs ed checked])).
Proof.
  intros Hh Hb. split.
  - intros Hno. apply last_with_None in Hno.
    rewrite (read_vec_file_as_dict_parsed _ _ _ _ _ _ Hh Hb), Hno. reflexivity.
  - intros coffee n d Hc Hn Hd checked.
    rewrite (read_vec_file_as_dict_parsed _ _ _ _ _ _ Hh Hb), Hc.
    rewrite (validate_shape_ints _ _ _ _ _ Hn Hd), bind_ok. simpl.
    rewrite app_nil_r. reflexivity.
Qed.

Lemma read_vec_file_as_dict_coffee_witness :
  read_vec_file_as_dict float32_literal no_coffee_file = (Raise KeyError, [])
  /\ outcome (read_vec_file_as_dict float32_literal ragged_coffee_file) =
       Ok (<["coffee" := [F32.zero; F32.of_Z 1]]>
           (<["tea" := [F32.of_Z 1; F32.zero; F32.of_Z 5; F32.of_Z 7]]> ∅))
  /\ printed (read_vec_file_as_dict float32_literal ragged_coffee_file) = [].
Proof.
  split.
  - refine (proj1 (read_vec_file_as_dict_coffee float32_literal "2 2
" (tail no_coffee_file) "2" "2"
                      [("tea", [F32.of_Z 1; F32.zero]); ("milk", [F32.zero; F32.of_Z 1])]
                      eq_refl eq_refl) _).
    simpl. rewrite !not_elem_of_cons. repeat split; try discriminate. apply not_elem_of_nil.
  - pose proof (proj2 (read_vec_file_as_dict_coffee float32_literal "2 2
" (tail ragged_coffee_file) "2" "2"
                      [("tea", [F32.of_Z 1; F32.zero; F32.of_Z 5; F32.of_Z 7]);
                       ("coffee", [F32.zero; F32.of_Z 1])]
                      eq_refl eq_refl) [F32.zero; F32.of_Z 1] 2 2 eq_refl eq_refl eq_refl) as H.
    change ragged_coffee_file with ("2 2
" :: tail ragged_coffee_file). cbv zeta in H. rewrite H. split; reflexivity.
Defined.

(** ** The plain reader *)

(** A header token that is no integer is not a declared shape: [int]
    raises out of [validate_shape], past its handler of the failed
    assertion, and out of the reader. *)
Lemma read_vec_file_header_not_integer
    (float32 : string -> option float) (header : string) (body : file)
    (vs ed : string) (entries : list (list string * string)) (vectors : ndarray) :
  Text.split (Text.strip header) = [vs; ed] ->
  parse_lines body = Ok entries ->
  np_array2 float32 (map fst entries) = Ok vectors ->
  Text.int vs = Raise ValueError ->
  read_vec_file float32 (header :: body) = (Raise ValueError, []).
Proof.
  intros Hh Hb Ha Hn. unfold read_vec_file.
  rewrite (read_header_cons _ _ _ _ Hh), bind_lift_ok.
  rewrite Hb, bind_lift_ok, Ha, bind_lift_ok.
  unfold validate_shape. rewrite Hn. reflexivity.
Qed.

(** C4. When the header of a file unpacks to two integers that are not the
    shape of the array its lines parse to, [read_vec_file] prints the shape
    warning, raises nothing, and returns the parsed array and labels as
    they are; the same array and labels are returned under any other
    integer header. *)
Theorem read_vec_file_header_mismatch
    (float32 : string -> option float) (header : string) (body : file)
    (vs ed : string) (n d : Z) (entries : list (list string * string))
    (vectors : ndarray) :
  Text.split (Text.strip header) = [vs; ed] ->
  Text.int vs = Ok n ->
  Text.int ed = Ok d ->
  parse_lines body = Ok entries ->
  np_array2 float32 (map fst entries) = Ok vectors ->
  np_shape vectors <> [n; d] ->
  read_vec_file float32 (header :: body) =
    (Ok (vectors, map snd entries), [ShapeWarning vs ed (np_shape vectors)])
  /\ forall (header' vs' ed' : string) (n' d' : Z),
       Text.split (Text.strip header') = [vs'; ed'] ->
       Text.int vs' = Ok n' -> Text.int ed' = Ok d' ->
       outcome (read_vec_file float32 (header' :: body)) = Ok (vectors, map snd entries).
Proof.
  intros Hh Hn Hd Hb Ha Hne.
  assert (Hgen : forall (h v e : string) (n0 d0 : Z),
             Text.split (Text.strip h) = [v; e] ->
             Text.int v = Ok n0 -> Text.int e = Ok d0 ->
             read_vec_file float32 (h :: body) =
               (Ok (vectors, map snd entries),
                if shape_eqb (np_shape vectors) [n0; d0] then []
                else [ShapeWarning v e (np_shape vectors)])).
  { intros h v e n0 d0 H1 H2 H3. unfold read_vec_file.
    rewrite (read_header_cons _ _ _ _ H1), bind_lift_ok.
    rewrite Hb, bind_lift_ok, Ha, bind_lift_ok.
    rewrite (validate_shape_ints _ _ _ _ _ H2 H3), bind_ok. simpl.
    rewrite app_nil_r. reflexivity. }
  split.
  - rewrite (Hgen _ _ _ _ _ Hh Hn Hd). unfold shape_eqb.
    rewrite bool_decide_eq_false_2 by exact Hne. reflexivity.
  - intros h v e n0 d0 H1 H2 H3. rewrite (Hgen _ _ _ _ _ H1 H2 H3). reflexivity.
Qed.

Lemma read_vec_file_header_mismatch_witness :
  read_vec_file float32_literal corrupted_header_file =
    (Ok (Mat 3 [[F32.of_Z 1; F32.zero; F32.zero]; [F32.zero; F32.of_Z 1; F32.zero]],
         ["alice"; "bob"]),
     [ShapeWarning "3" "2" [2; 3]]).
Proof.
  refine (proj1 (read_vec_file_header_mismatch float32_literal "3 2
" (tail corrupted_header_file) "3" "2" 3 2
                   [(["1"; "0"; "0"], "alice"); (["0"; "1"; "0"], "bob")]
                   (Mat 3 [[F32.of_Z 1; F32.zero; F32.zero]; [F32.zero; F32.of_Z 1; F32.zero]])
                   eq_refl eq_refl eq_refl eq_refl eq_refl _)).
  simpl. discriminate.
Defined.

(** ** The reference scores *)

Lemma append_String (c : ascii) (s t : string) :
  String.append (String c s) t = String c (String.append s t).
Proof. reflexivity. Qed.

Lemma sub_comma_in_match_no_newline (r t : string) :
  ~ In Text.newline (list_ascii_of_string r) ->
  Text.sub_comma_from true (String.append r t) = Text.sub_comma_from true t.
Proof.
  induction r as [|c r IH]; intros Hno; [reflexivity|].
  rewrite append_String. simpl in *.
  destruct (Ascii.eqb_spec c Text.newline) as [->|_].
  - exfalso. apply Hno. left. reflexivity.
  - apply IH. intros Hin. apply Hno. right. exact Hin.
Qed.

Lemma sub_comma_from_same_tail (st : bool) (s u u' : string) :
  (forall st', Text.sub_comma_from st' u = Text.sub_comma_from st' u') ->
  Text.sub_comma_from st (String.append s u) = Text.sub_comma_from st (String.append s u').
Proof.
  intros Hu. revert st. induction s as [|c s IH]; intros st; [apply Hu|].
  rewrite !append_String. simpl.
  destruct st.
  - destruct (Ascii.eqb c Text.newline); rewrite IH; reflexivity.
  - destruct (Ascii.eqb c Text.comma); rewrite IH; reflexivity.
Qed.

Lemma string_app_assoc (a b c : string) :
  String.append (String.append a b) c = String.append a (String.append b c).
Proof. induction a as [|x a IH]; [reflexivity|]. rewrite !append_String, IH. reflexivity. Qed.

(** A bioname of the form LAST, First: the tag appended to it for a missing
    score falls to the substitution that cuts the name at its comma, and the
    row is named as if it had a score. *)
Lemma missing_tag_lost_after_comma (last rest : string) :
  ~ In Text.newline (list_ascii_of_string rest) ->
  reformat_name (String.append (String.append last (String Text.comma rest)) missing_tag) =
  reformat_name (String.append last (String Text.comma rest)).
Proof.
  intros Hno. unfold reformat_name, Text.sub_comma. apply (f_equal Text.lower).
  rewrite string_app_assoc. apply sub_comma_from_same_tail.
  assert (Htrue : Text.sub_comma_from true (String.append rest missing_tag) =
                  Text.sub_comma_from true rest).
  { rewrite (sub_comma_in_match_no_newline rest missing_tag Hno).
    pose proof (sub_comma_in_match_no_newline rest EmptyString Hno) as Hrest.
    assert (Hnil : String.append rest EmptyString = rest).
    { clear. induction rest as [|c r IH]; [reflexivity|].
      rewrite append_String, IH. reflexivity. }
    rewrite Hnil in Hrest. rewrite Hrest. reflexivity. }
  intros [|]; rewrite !append_String; simpl; exact Htrue.
Qed.

(** C1, at the row of the description. A row "SMITH, John" with an empty
    score is reported as missing and gets the score token [0], but its name
    comes out as "smith": the tag "(missing score)" is gone, and the name is
    the one a row with a score would have. *)
Theorem read_dwnominate_csv_missing_score_smith (float32 : string -> option float) :
  read_dwnominate_csv float32 [smith_row] =
    (match float32 "0" with
     | Some score => Ok ([score], ["smith"])
     | None => Raise ValueError
     end,
     [MissingScores ["SMITH, John"]]).
Proof.
  unfold read_dwnominate_csv, smith_row. simpl csv_loop. cbv iota beta.
  rewrite bind_print. unfold np_array1, to_float32. simpl map_result.
  destruct (float32 "0"); reflexivity.
Qed.

(** ** Projection *)

Lemma shl_align_same (m : positive) (e : Z) : shl_align m e e = (m, e).
Proof. unfold shl_align. rewrite Z.sub_diag. reflexivity. Qed.

Lemma sub_self (x : float) : zero_or_nan (F32.sub x x).
Proof.
  destruct x as [s|s| |s m e]; unfold F32.sub, SFsub.
  - left. destruct s; reflexivity.
  - right. destruct s; reflexivity.
  - right. reflexivity.
  - left. rewrite Z.min_id, shl_align_same. cbn [fst].
    rewrite Z.sub_diag. reflexivity.
Qed.

Lemma mul_zero_or_nan (x : float) : zero_or_nan x -> zero_or_nan (F32.mul x x).
Proof. intros [-> | ->]; [left | right]; reflexivity. Qed.

Lemma add_zero_or_nan (x y : float) :
  zero_or_nan x -> zero_or_nan y -> zero_or_nan (F32.add x y).
Proof. intros [-> | ->] [-> | ->]; [left | right | right | right]; reflexivity. Qed.

Lemma sqrt_zero_or_nan (x : float) : zero_or_nan x -> zero_or_nan (F32.sqrt x).
Proof. intros [-> | ->]; [left | right]; reflexivity. Qed.

Lemma div_zero_or_nan (x y : float) :
  zero_or_nan x -> zero_or_nan y -> F32.div x y = F32.nan.
Proof. intros [-> | ->] [-> | ->]; reflexivity. Qed.

Lemma dot1_zero_or_nan (xs : list float) :
  Forall zero_or_nan xs -> zero_or_nan (dot1 xs xs).
Proof.
  intros Hxs. unfold dot1.
  assert (Hacc : zero_or_nan F32.zero) by (left; reflexivity).
  revert Hacc. generalize F32.zero as acc.
  induction Hxs as [|x xs Hx _ IH]; intros acc Hacc; simpl; [exact Hacc|].
  apply IH. apply add_zero_or_nan; [exact Hacc | apply mul_zero_or_nan; exact Hx].
Qed.

Lemma zip_with_sub_self (v : list float) : Forall zero_or_nan (zip_with F32.sub v v).
Proof. induction v as [|x v IH]; simpl; constructor; [apply sub_self | exact IH]. Qed.

(** C7. With the positive and the negative anchor identical, whatever
    their entries (any binary32 value: finite, infinite or NaN), the axis
    construction raises nothing and yields one fixed result: the vector of
    NaNs of the anchors' length. *)
Theorem build_axis_identical_anchors (v : list float) :
  build_axis v v = Ok (repeat F32.nan (length v)).
Proof.
  unfold build_axis, np_sub1. rewrite Nat.eqb_refl. f_equal.
  pose proof (zip_with_sub_self v) as Hdiff.
  pose proof (sqrt_zero_or_nan _ (dot1_zero_or_nan _ Hdiff)) as Hnorm.
  fold (norm (zip_with F32.sub v v)) in Hnorm.
  assert (Hlen : length (zip_with F32.sub v v) = length v).
  { rewrite length_zip_with. lia. }
  rewrite <- Hlen. revert Hdiff. generalize (norm (zip_with F32.sub v v)) as nrm, Hnorm.
  generalize (zip_with F32.sub v v) as diff. clear.
  intros diff nrm Hnorm Hdiff. induction Hdiff as [|x diff Hx _ IH]; simpl; [reflexivity|].
  rewrite (div_zero_or_nan _ _ Hx Hnorm), IH. reflexivity.
Qed.

Lemma length_unit_axis (p n : list float) :
  length p = length n -> length (unit_axis p n) = length p.
Proof. intros H. unfold unit_axis. rewrite length_map, length_zip_with. lia. Qed.

Lemma build_axis_unit_axis (p n : list float) :
  length p = length n -> build_axis p n = Ok (unit_axis p n).
Proof.
  intros H. unfold build_axis, np_sub1. rewrite H, Nat.eqb_refl. reflexivity.
Qed.



(** ** One session *)

Lemma bind_eq {A B} (c : M A) (k : A -> M B) (a : A) (out : list event) :
  c = (Ok a, out) -> bind c k = (fst (k a), out ++ snd (k a)).
Proof. intros ->. apply bind_ok. Qed.

Lemma bind_raise {A B} (c : M A) (k : A -> M B) (e : exn) (out : list event) :
  c = (Raise e, out) -> bind c k = (Raise e, out).
Proof. intros ->. reflexivity. Qed.

Section Session.

Variable ext : externals.

(** The evaluator of the file mode, once the table and the file are read
    and the vectors projected: the plot decides between going on, going on
    with a report, and raising; the coefficients are the routines' own. *)
Lemma evaluate_ideology_projection_steps
    (f : file) (cgrs_sess : Z) (table : list csv_row)
    (ideology : list float) (names : list string) (out : list event)
    (vectors : ndarray) (axis_vectors : list (list float)) (labels : list string)
    (x_proj y_proj : ndarray) :
  members_csv ext cgrs_sess = Some table ->
  read_dwnominate_csv (float32 ext) table = (Ok (ideology, names), out) ->
  read_vec_file_with_axes (float32 ext) f = (Ok (vectors, axis_vectors, labels), []) ->
  scalar_projection (Array vectors) axis_vectors = Ok (x_proj, y_proj) ->
  evaluate_ideology_projection ext (Some f) cgrs_sess =
    match scatter_plot ext x_proj ideology names with
    | Ok _ => (correlate ext x_proj ideology, out)
    | Raise ValueError => (correlate ext x_proj ideology, out ++ [FailedToGraph cgrs_sess])
    | Raise e => (Raise e, out)
    end.
Proof.
  intros Htable Hcsv Hfile Hproj. unfold evaluate_ideology_projection.
  rewrite Htable. cbn [open]. rewrite bind_lift_ok.
  rewrite (bind_eq _ _ _ _ Hcsv). cbn [open]. rewrite bind_lift_ok.
  rewrite (bind_eq _ _ _ _ Hfile). rewrite Hproj, bind_lift_ok.
  unfold correlate.
  destruct (scatter_plot ext x_proj ideology names) as [[]|e].
  - rewrite bind_lift_ok.
    destruct (pearsonr ext x_proj ideology) as [p|e]; cbn; [|rewrite app_nil_r; reflexivity].
    destruct (spearmanr ext x_proj ideology) as [s|e]; cbn; rewrite app_nil_r; reflexivity.
  - destruct e; try (cbn; rewrite app_nil_r; reflexivity).
    rewrite bind_print.
    destruct (pearsonr ext x_proj ideology) as [p|e]; cbn; [|reflexivity].
    destruct (spearmanr ext x_proj ideology) as [s|e]; cbn; reflexivity.
Qed.

Lemma evaluate_ideology_projection_projection_raises
    (f : file) (cgrs_sess : Z) (table : list csv_row)
    (ideology : list float) (names : list string) (out : list event)
    (vectors : ndarray) (axis_vectors : list (list float)) (labels : list string)
    (e : exn) :
  members_csv ext cgrs_sess = Some table ->
  read_dwnominate_csv (float32 ext) table = (Ok (ideology, names), out) ->
  read_vec_file_with_axes (float32 ext) f = (Ok (vectors, axis_vectors, labels), []) ->
  scalar_projection (Array vectors) axis_vectors = Raise e ->
  evaluate_ideology_projection ext (Some f) cgrs_sess = (Raise e, out).
Proof.
  intros Htable Hcsv Hfile Hproj. unfold evaluate_ideology_projection.
  rewrite Htable. cbn [open]. rewrite bind_lift_ok.
  rewrite (bind_eq _ _ _ _ Hcsv). cbn [open]. rewrite bind_lift_ok.
  rewrite (bind_eq _ _ _ _ Hfile). rewrite Hproj. cbn. rewrite app_nil_r. reflexivity.
Qed.

End Session.

(** ** The table of reference scores, row by row *)

Lemma map_result_length {A B} (f : A -> result B) (xs : list A) (ys : list B) :
  map_result f xs = Ok ys -> length ys = length xs.
Proof.
  revert ys. induction xs as [|x xs IH]; intros ys; simpl.
  - intros [= <-]. reflexivity.
  - destruct (f x); [|discriminate]. destruct (map_result f xs); [|discriminate].
    intros [= <-]. simpl. f_equal. apply IH. reflexivity.
Qed.

Lemma csv_loop_lengths (rows : list csv_row) :
  length (fst (fst (csv_loop rows))) = length rows
  /\ length (snd (fst (csv_loop rows))) = length rows.
Proof.
  induction rows as [|r rows [IH1 IH2]]; simpl; [split; reflexivity|].
  destruct (csv_loop rows) as [[scores names] missing]. simpl in *.
  destruct (truthy (dim1 r)); simpl; split; congruence.
Qed.

(** Scores and names stay in step: one of each per row. *)
Lemma read_dwnominate_csv_lengths (float32 : string -> option float)
    (table : list csv_row) (ideology : list float) (names : list string)
    (out : list event) :
  read_dwnominate_csv float32 table = (Ok (ideology, names), out) ->
  length ideology = length table /\ length names = length table.
Proof.
  unfold read_dwnominate_csv. pose proof (csv_loop_lengths table) as [H1 H2].
  destruct (csv_loop table) as [[scores raw] missing]. simpl in H1, H2.
  intros H.
  assert (Hconv : np_array1 float32 scores = Ok ideology /\ names = map reformat_name raw).
  { destruct missing; [rewrite bind_ret in H | rewrite bind_print in H];
      destruct (np_array1 float32 scores); cbn in H; inversion H; split; reflexivity. }
  destruct Hconv as [Hconv ->].
  apply map_result_length in Hconv. rewrite length_map. split; congruence.
Qed.

(** ** The shared dictionary, session by session *)

Section DictSession.

Variable vec_dict : gmap string (list float).

Lemma in_vocab_retained (ideology : list float) (senators : list string) (i : nat) :
  (length senators <= length (drop i ideology))%nat ->
  in_vocab vec_dict ideology i senators =
    let kept := retained vec_dict senators (drop i ideology) in
    Ok (map name_of kept, map vector_of kept, map score_of kept).
Proof.
  revert i. induction senators as [|w ws IH]; intros i Hlen; [reflexivity|].
  simpl in Hlen. destruct (ideology !! i) as [score|] eqn:Hi.
  - rewrite (drop_S _ _ _ Hi) in *. simpl in Hlen. simpl.
    rewrite Hi. rewrite IH by lia.
    destruct (vec_dict !! w); reflexivity.
  - apply lookup_ge_None in Hi. rewrite drop_ge in Hlen by exact Hi. simpl in Hlen. lia.
Qed.

Lemma retained_names (senators : list string) (ideology : list float) :
  (length senators <= length ideology)%nat ->
  map name_of (retained vec_dict senators ideology) =
  List.filter (known vec_dict) senators.
Proof.
  revert ideology. induction senators as [|w ws IH]; intros [|s ideology] Hlen;
    simpl in *; try reflexivity; try lia.
  unfold known at 1. destruct (vec_dict !! w) as [v|] eqn:Hw.
  - rewrite bool_decide_eq_true_2 by eauto. simpl. f_equal. apply IH. lia.
  - rewrite bool_decide_eq_false_2 by (intros [? ?]; discriminate). apply IH. lia.
Qed.

Lemma contains_in (labels : list string) (w : string) :
  contains labels w = true <-> In w labels.
Proof.
  unfold contains. rewrite existsb_exists. split.
  - intros [x [Hin Heq]]. apply String.eqb_eq in Heq. subst. exact Hin.
  - intros Hin. exists w. split; [exact Hin | apply String.eqb_refl].
Qed.

(** The comprehension [w for w in senators if w not in in_vocab_labels]
    lists the names that are no key. *)
Lemma missing_absent (senators : list string) (ideology : list float) :
  (length senators <= length ideology)%nat ->
  List.filter
    (fun w => negb (contains (map name_of (retained vec_dict senators ideology)) w))
    senators =
  absent vec_dict senators.
Proof.
  intros Hlen. rewrite (retained_names _ _ Hlen). unfold absent.
  apply filter_ext_in. intros w Hin. f_equal.
  apply eq_true_iff_eq. rewrite contains_in, filter_In. tauto.
Qed.

End DictSession.

Section DictSessionSteps.

Variable ext : externals.
Variable vec_dict : gmap string (list float).

(** One session of the dictionary mode, once its table is read: the names
    that are no key are reported, the pairs that are kept are projected,
    plotted and correlated, and every exception on the way is raised on. *)
Lemma dict_session_steps
    (axis_vectors : list (list float)) (cgrs_sess : Z) (table : list csv_row)
    (ideology : list float) (senators : list string) (out : list event) :
  members_csv ext cgrs_sess = Some table ->
  read_dwnominate_csv (float32 ext) table = (Ok (ideology, senators), out) ->
  dict_session ext vec_dict axis_vectors cgrs_sess =
    let kept := retained vec_dict senators ideology in
    let out' := out ++ report_missing cgrs_sess (absent vec_dict senators) in
    match scalar_projection (PyList (map vector_of kept)) axis_vectors with
    | Raise e => (Raise e, out')
    | Ok (x_proj, _) =>
        match scatter_plot ext x_proj (map score_of kept) (map name_of kept) with
        | Raise e => (Raise e, out')
        | Ok _ => (correlate ext x_proj (map score_of kept), out')
        end
    end.
Proof.
  intros Htable Hcsv.
  pose proof (read_dwnominate_csv_lengths _ _ _ _ _ Hcsv) as [Hl1 Hl2].
  assert (Hlen : (length senators <= length ideology)%nat) by lia.
  unfold dict_session. rewrite Htable. cbn [open]. rewrite bind_lift_ok.
  rewrite (bind_eq _ _ _ _ Hcsv). cbn [fst snd].
  rewrite (in_vocab_retained vec_dict ideology senators 0) by (rewrite drop_0; exact Hlen).
  rewrite drop_0. cbv zeta. rewrite bind_lift_ok.
  rewrite (missing_absent vec_dict _ _ Hlen).
  set (kept := retained vec_dict senators ideology).
  set (missing := absent vec_dict senators).
  assert (Hreport : forall (B : Type) (k : unit -> M B),
             bind (match missing with
                   | [] => ret tt
                   | _ :: _ => print (SessionMissing cgrs_sess missing)
                   end) k =
             (fst (k tt), report_missing cgrs_sess missing ++ snd (k tt))).
  { intros B k. destruct missing; [rewrite bind_ret | rewrite bind_print];
      destruct (k tt); reflexivity. }
  rewrite Hreport. cbn [fst snd].
  destruct (scalar_projection (PyList (map vector_of kept)) axis_vectors) as [[x_proj y_proj]|e].
  - rewrite bind_lift_ok. unfold correlate.
    destruct (scatter_plot ext x_proj (map score_of kept) (map name_of kept)) as [[]|e].
    + rewrite bind_lift_ok.
      destruct (pearsonr ext x_proj (map score_of kept)) as [p|e]; cbn;
        [|rewrite app_nil_r; reflexivity].
      destruct (spearmanr ext x_proj (map score_of kept)) as [s|e]; cbn;
        rewrite app_nil_r; reflexivity.
    + cbn. rewrite app_nil_r. reflexivity.
  - cbn. rewrite app_nil_r. reflexivity.
Qed.

End DictSessionSteps.

(** C8. In the dictionary mode a session keeps exactly the reference
    names that are keys of the mapping, each with the mapping's own vector
    and with the score of its own row, in the order of the table; the other
    names are printed as missing for the session; and the plot and the two
    correlation routines receive the projections and scores of the kept
    pairs and nothing else. With names alice, bob, dave and a mapping that
    knows alice and bob, dave is reported and two pairs are correlated. *)
Theorem dict_session_drops_absent_names :
  (forall (ext : externals) (vec_dict : gmap string (list float))
          (axis_vectors : list (list float)) (cgrs_sess : Z) (table : list csv_row)
          (ideology : list float) (senators : list string) (out : list event),
      members_csv ext cgrs_sess = Some table ->
      read_dwnominate_csv (float32 ext) table = (Ok (ideology, senators), out) ->
      let kept := retained vec_dict senators ideology in
      let out' := out ++ report_missing cgrs_sess (absent vec_dict senators) in
      map name_of kept = List.filter (known vec_dict) senators
      /\ dict_session ext vec_dict axis_vectors cgrs_sess =
           match scalar_projection (PyList (map vector_of kept)) axis_vectors with
           | Raise e => (Raise e, out')
           | Ok (x_proj, _) =>
               match scatter_plot ext x_proj (map score_of kept) (map name_of kept) with
               | Raise e => (Raise e, out')
               | Ok _ => (correlate ext x_proj (map score_of kept), out')
               end
           end)
  /\ (forall plot pearson spearman,
        let ext := externals_with plot pearson spearman (every_session abd_table) in
        let x_proj := Vec [F32.of_Z 1; F32.zero] in
        let scores := [F32.of_Z 1; F32.of_Z (-1)] in
        dict_session ext ab_dict scenario_anchors 97 =
          match plot x_proj scores ["alice"; "bob"] with
          | Raise e => (Raise e, [SessionMissing 97 ["dave"]])
          | Ok _ => (correlate ext x_proj scores, [SessionMissing 97 ["dave"]])
          end).
Proof.
  split.
  - intros ext vec_dict axis_vectors cgrs_sess table ideology senators out Htable Hcsv kept out'.
    split.
    + apply retained_names.
      pose proof (read_dwnominate_csv_lengths _ _ _ _ _ Hcsv) as [H1 H2]. lia.
    + apply (dict_session_steps ext vec_dict axis_vectors cgrs_sess table _ _ _ Htable Hcsv).
  - intros plot pearson spearman ext x_proj scores.
    rewrite (dict_session_steps ext ab_dict scenario_anchors 97 abd_table
               [F32.of_Z 1; F32.of_Z (-1); F32.of_Z 1] ["alice"; "bob"; "dave"] []
               eq_refl eq_refl).
    reflexivity.
Qed.

Lemma dict_session_drops_absent_names_witness :
  dict_session (checked_externals (every_session abd_table)) ab_dict scenario_anchors 97 =
    (Ok (one64, one64), [SessionMissing 97 ["dave"]]).
Proof.
  destruct (proj1 dict_session_drops_absent_names
              (checked_externals (every_session abd_table)) ab_dict scenario_anchors 97
              abd_table [F32.of_Z 1; F32.of_Z (-1); F32.of_Z 1] ["alice"; "bob"; "dave"] []
              eq_refl eq_refl) as [_ Hsession].
  rewrite Hsession. reflexivity.
Defined.

(** ** What gets printed *)

Lemma printed_bind {A B} (c : M A) (k : A -> M B) :
  printed (bind c k) =
  printed c ++ match outcome c with
               | Ok a => printed (k a)
               | Raise _ => []
               end.
Proof.
  destruct c as [[a|e] out]; cbn; [|rewrite app_nil_r; reflexivity].
  destruct (k a); reflexivity.
Qed.

Lemma outcome_bind {A B} (c : M A) (k : A -> M B) :
  outcome (bind c k) =
  match outcome c with
  | Ok a => outcome (k a)
  | Raise e => Raise e
  end.
Proof. destruct c as [[a|e] out]; cbn; [|reflexivity]. destruct (k a); reflexivity. Qed.

Lemma quiet_bind {A B} (c : M A) (k : A -> M B) :
  Forall quiet (printed c) -> (forall a, Forall quiet (printed (k a))) ->
  Forall quiet (printed (bind c k)).
Proof.
  intros Hc Hk. rewrite printed_bind. apply Forall_app. split; [exact Hc|].
  destruct (outcome c); [apply Hk | constructor].
Qed.

Lemma quiet_lift {A} (r : result A) : Forall quiet (printed (lift r)).
Proof. constructor. Qed.

Lemma quiet_ret {A} (a : A) : Forall quiet (printed (ret a)).
Proof. constructor. Qed.

Lemma quiet_print (ev : event) : quiet ev -> Forall quiet (printed (print ev)).
Proof. intros H. repeat constructor. exact H. Qed.

Ltac quiet_steps :=
  repeat match goal with
    | |- Forall quiet (printed (lift _)) => apply quiet_lift
    | |- Forall quiet (printed (ret _)) => apply quiet_ret
    | |- Forall quiet (printed (print _)) => apply quiet_print; reflexivity
    | |- Forall quiet (printed (bind _ _)) => apply quiet_bind; [| intros ]
    | p : (_ * _)%type |- _ => destruct p
    | u : unit |- _ => destruct u
    end.

Lemma read_dwnominate_csv_quiet (float32 : string -> option float) (table : list csv_row) :
  Forall quiet (printed (read_dwnominate_csv float32 table)).
Proof.
  unfold read_dwnominate_csv. destruct (csv_loop table) as [[scores names] missing].
  quiet_steps. destruct missing; quiet_steps.
Qed.

Lemma read_vec_file_with_axes_quiet (float32 : string -> option float) (f : file) :
  Forall quiet (printed (read_vec_file_with_axes float32 f)).
Proof. unfold read_vec_file_with_axes. quiet_steps. Qed.

Lemma evaluate_ideology_projection_quiet (ext : externals) (vec_file : option file)
    (cgrs_sess : Z) :
  Forall quiet (printed (evaluate_ideology_projection ext vec_file cgrs_sess)).
Proof.
  unfold evaluate_ideology_projection. quiet_steps;
    try apply read_dwnominate_csv_quiet; try apply read_vec_file_with_axes_quiet.
  match goal with |- context [scatter_plot ?e ?x ?y ?l] =>
    destruct (scatter_plot e x y l) as [|[]] end; quiet_steps.
Qed.

(** ** The loop over the sessions *)

Section CompareLoop.

Variable ext : externals.
Variable vec_file : Z -> option file.

Lemma compare_loop_quiet (sessions : list Z) (sp ss : pynum) :
  Forall quiet (printed (compare_loop ext vec_file sessions sp ss)).
Proof.
  revert sp ss. induction sessions as [|s rest IH]; intros sp ss; cbn [compare_loop].
  - apply quiet_ret.
  - quiet_steps; try apply evaluate_ideology_projection_quiet; try apply IH.
Qed.

Lemma compare_loop_evaluated (sessions : list Z) (coeffs : list (float * float))
    (sp ss : pynum) :
  Forall2 (evaluated ext vec_file) sessions coeffs ->
  outcome (compare_loop ext vec_file sessions sp ss) =
    Ok (fold_left py_add (map fst coeffs) sp, fold_left py_add (map snd coeffs) ss).
Proof.
  intros H. revert sp ss. induction H as [|s c sessions coeffs Hs _ IH]; intros sp ss.
  - reflexivity.
  - cbn [compare_loop]. rewrite outcome_bind. unfold evaluated in Hs. rewrite Hs.
    destruct c as [p r]. rewrite !outcome_bind. cbn [print outcome fst].
    rewrite IH. reflexivity.
Qed.

Lemma compare_loop_fails (sessions : list Z) (sp ss : pynum) :
  Exists (fails ext vec_file) sessions ->
  exists e, outcome (compare_loop ext vec_file sessions sp ss) = Raise e.
Proof.
  intros H. revert sp ss. induction sessions as [|s rest IH]; intros sp ss.
  - inversion H.
  - cbn [compare_loop]. rewrite outcome_bind.
    destruct (outcome (evaluate_ideology_projection ext (vec_file s) s)) as [[p r]|e] eqn:Hs.
    + rewrite !outcome_bind. cbn [print outcome fst]. apply IH.
      inversion H as [? ? [e He]|]; subst; [|assumption].
      rewrite Hs in He. discriminate.
    + exists e. reflexivity.
Qed.

Lemma py_truediv_nonzero (a : pynum) (b : Z) :
  b <> 0 -> py_truediv a b = Ok (F64.div (to_float a) (F64.of_Z b)).
Proof.
  intros Hb. destruct a; simpl; [|reflexivity].
  destruct (Z.eqb_spec b 0); [contradiction | reflexivity].
Qed.

End CompareLoop.

(** C2, as the script has it. Over a non-empty range: when every session
    is evaluated, the run ends by printing the two sums divided by
    [end - start], the size of the requested range; when the evaluation of
    some session raises, the run raises and prints no average at all. No
    session is ever left out of a divisor. *)
Theorem compare_among_years_divides_by_range
    (ext : externals) (vec_file : Z -> option file) (start stop : Z) :
  start < stop ->
  (forall coeffs : list (float * float),
      Forall2 (evaluated ext vec_file) (range start stop) coeffs ->
      outcome (compare_among_years ext vec_file start stop) = Ok tt
      /\ exists out,
           Forall quiet out
           /\ printed (compare_among_years ext vec_file start stop) =
                out ++
                [AveragePearson
                   (F64.div (to_float (sum_of (map fst coeffs))) (F64.of_Z (stop - start)));
                 AverageSpearman
                   (F64.div (to_float (sum_of (map snd coeffs))) (F64.of_Z (stop - start)))])
  /\ (Exists (fails ext vec_file) (range start stop) ->
      (exists e, outcome (compare_among_years ext vec_file start stop) = Raise e)
      /\ Forall quiet (printed (compare_among_years ext vec_file start stop))).
Proof.
  intros Hlt. assert (Hnz : stop - start <> 0) by lia. split.
  - intros coeffs Hall.
    pose proof (compare_loop_evaluated ext vec_file _ _ (PyInt 0) (PyInt 0) Hall) as Hloop.
    pose proof (compare_loop_quiet ext vec_file (range start stop) (PyInt 0) (PyInt 0)) as Hq.
    unfold compare_among_years.
    destruct (compare_loop ext vec_file (range start stop) (PyInt 0) (PyInt 0)) as [r out].
    cbn [outcome fst] in Hloop. cbn [printed snd] in Hq. subst r.
    rewrite bind_ok. unfold print_averages.
    rewrite !(py_truediv_nonzero _ _ Hnz), !bind_lift_ok, bind_print.
    cbn [print outcome printed fst snd]. fold (sum_of (map fst coeffs)) (sum_of (map snd coeffs)).
    split; [reflexivity|]. exists out. split; [exact Hq | reflexivity].
  - intros Hex.
    destruct (compare_loop_fails ext vec_file _ (PyInt 0) (PyInt 0) Hex) as [e He].
    pose proof (compare_loop_quiet ext vec_file (range start stop) (PyInt 0) (PyInt 0)) as Hq.
    unfold compare_among_years.
    destruct (compare_loop ext vec_file (range start stop) (PyInt 0) (PyInt 0)) as [r out].
    cbn [outcome fst] in He. cbn [printed snd] in Hq. subst r.
    split; [exists e; reflexivity | exact Hq].
Qed.

Lemma compare_among_years_divides_by_range_witness :
  outcome (compare_among_years (checked_externals five_cohort_tables) five_cohort_files 1 3)
    = Ok tt
  /\ exists out,
       Forall quiet out
       /\ printed (compare_among_years (checked_externals five_cohort_tables)
                     five_cohort_files 1 3) =
            out ++
            [AveragePearson (F64.div (to_float (sum_of [one64; one64])) (F64.of_Z 2));
             AverageSpearman (F64.div (to_float (sum_of [one64; one64])) (F64.of_Z 2))].
Proof.
  refine (proj1 (compare_among_years_divides_by_range
                   (checked_externals five_cohort_tables) five_cohort_files 1 3 _)
            [(one64, one64); (one64, one64)] _).
  - reflexivity.
  - change (range 1 3) with [1; 2]. repeat constructor; reflexivity.
Defined.

(** C2 fails on the script. Five cohorts, the third with one paired sample.
    With routines that refuse a single pair, the run stops at the third
    cohort and no average is printed. With routines that answer NaN there,
    the NaN is summed and the averages are NaN, where the four sound
    coefficients divided by 4 would give 1. *)
Lemma compare_among_years_counts_every_cohort :
  compare_among_years (checked_externals five_cohort_tables) five_cohort_files 1 6 =
    (Raise ValueError,
     [PrintPearson one64; PrintSpearman one64; PrintPearson one64; PrintSpearman one64])
  /\ printed (compare_among_years
                (externals_with plot_same_size (coefficient_or_nan one64)
                   (coefficient_or_nan one64) five_cohort_tables)
                five_cohort_files 1 6) =
       [PrintPearson one64; PrintSpearman one64; PrintPearson one64; PrintSpearman one64;
        PrintPearson S754_nan; PrintSpearman S754_nan;
        PrintPearson one64; PrintSpearman one64; PrintPearson one64; PrintSpearman one64;
        AveragePearson S754_nan; AverageSpearman S754_nan]
  /\ F64.div (to_float (sum_of [one64; one64; one64; one64])) (F64.of_Z 4) = one64.
Proof. repeat split; vm_compute; reflexivity. Qed.

(** ** Sequences of different lengths in the file mode *)

(** C3, as the script has it. When the projections and the reference
    scores of a session differ in number, the evaluator checks nothing
    itself: both sequences go, whole, to the plot and then to the
    correlation routines. A [ValueError] of the plot is reported as a failure
    to graph the session and passed over; what the routines return is
    returned, what they raise is raised. *)
Theorem evaluate_ideology_projection_length_mismatch
    (ext : externals) (f : file) (cgrs_sess : Z) (table : list csv_row)
    (ideology : list float) (names : list string) (out : list event)
    (vectors : ndarray) (axis_vectors : list (list float)) (labels : list string)
    (xs : list float) (y_proj : ndarray) :
  members_csv ext cgrs_sess = Some table ->
  read_dwnominate_csv (float32 ext) table = (Ok (ideology, names), out) ->
  read_vec_file_with_axes (float32 ext) f = (Ok (vectors, axis_vectors, labels), []) ->
  scalar_projection (Array vectors) axis_vectors = Ok (Vec xs, y_proj) ->
  length xs <> length ideology ->
  evaluate_ideology_projection ext (Some f) cgrs_sess =
    match scatter_plot ext (Vec xs) ideology names with
    | Ok _ => (correlate ext (Vec xs) ideology, out)
    | Raise ValueError => (correlate ext (Vec xs) ideology, out ++ [FailedToGraph cgrs_sess])
    | Raise e => (Raise e, out)
    end.
Proof.
  intros Htable Hcsv Hfile Hproj _.
  exact (evaluate_ideology_projection_steps ext f cgrs_sess table ideology names out
           vectors axis_vectors labels (Vec xs) y_proj Htable Hcsv Hfile Hproj).
Qed.

Lemma evaluate_ideology_projection_length_mismatch_witness :
  evaluate_ideology_projection
    (externals_with plot_same_size (fun _ _ => Ok one64) (fun _ _ => Ok one64)
       (every_session two_row_table))
    (Some three_vector_file) 97 =
  (Ok (one64, one64), [FailedToGraph 97]).
Proof.
  rewrite (evaluate_ideology_projection_length_mismatch
             (externals_with plot_same_size (fun _ _ => Ok one64) (fun _ _ => Ok one64)
                (every_session two_row_table))
             three_vector_file 97 two_row_table
             [F32.of_Z 1; F32.of_Z (-1)] ["alice"; "bob"] []
             (Mat 2 scenario_vectors) scenario_anchors ["alice"; "bob"; "carol"]
             [F32.of_Z 1; F32.zero; F32.of_Z (-1)]
             (Vec [F32.zero; F32.of_Z 1; F32.zero])
             eq_refl eq_refl eq_refl eq_refl).
  - reflexivity.
  - simpl. lia.
Defined.

(** C3 fails on the script. Three vectors against two reference scores:
    the plot's refusal is reported, and then the correlation routine is
    called all the same. A routine that refuses the two sizes raises from
    inside the evaluator and ends the whole run; a routine that answers has
    its answer returned as the session's coefficients. *)
Lemma evaluate_ideology_projection_mismatch_reaches_correlation :
  evaluate_ideology_projection (checked_externals (every_session two_row_table))
    (Some three_vector_file) 97 = (Raise ValueError, [FailedToGraph 97])
  /\ compare_among_years (checked_externals (every_session two_row_table))
       (fun _ => Some three_vector_file) 97 98 = (Raise ValueError, [FailedToGraph 97])
  /\ evaluate_ideology_projection
       (externals_with plot_same_size (fun _ _ => Ok one64) (fun _ _ => Ok one64)
          (every_session two_row_table))
       (Some three_vector_file) 97 = (Ok (one64, one64), [FailedToGraph 97]).
Proof. repeat split; vm_compute; reflexivity. Qed.

Lemma dict_loop_fails (ext : externals) (vec_dict : gmap string (list float))
    (axis_vectors : list (list float)) (sessions : list Z) (sp ss : pynum) :
  Exists (dict_fails ext vec_dict axis_vectors) sessions ->
  exists e, outcome (dict_loop ext vec_dict axis_vectors sessions sp ss) = Raise e.
Proof.
  intros H. revert sp ss. induction sessions as [|s rest IH]; intros sp ss.
  - inversion H.
  - cbn [dict_loop]. rewrite outcome_bind.
    destruct (outcome (dict_session ext vec_dict axis_vectors s)) as [[p r]|e] eqn:Hs.
    + rewrite !outcome_bind. cbn [print outcome fst]. apply IH.
      inversion H as [? ? [e He]|]; subst; [|assumption].
      rewrite Hs in He. discriminate.
    + exists e. reflexivity.
Qed.

(** ** Fewer than two paired samples *)

(** Without a single vector the projection raises: numpy's inner product
    refuses the empty one-dimensional array against an axis of one entry or
    more. *)
Lemma scalar_projection_no_vectors (a0 a1 a2 a3 : list float) :
  length a0 = length a1 -> a0 <> [] ->
  scalar_projection (Array (Vec [])) [a0; a1; a2; a3] = Raise ValueError
  /\ scalar_projection (PyList []) [a0; a1; a2; a3] = Raise ValueError.
Proof.
  intros Hlen Hne.
  assert (Hx : build_axis a0 a1 = Ok (unit_axis a0 a1)) by (apply build_axis_unit_axis; exact Hlen).
  assert (Hdim : Nat.eqb 0 (length (unit_axis a0 a1)) = false).
  { rewrite (length_unit_axis _ _ Hlen). destruct a0; [contradiction | reflexivity]. }
  assert (Hy : build_axis a2 a3 = Raise ValueError \/ exists y, build_axis a2 a3 = Ok y).
  { unfold build_axis, np_sub1.
    destruct (Nat.eqb (length a2) (length a3)); [right; eexists; reflexivity|].
    destruct a2 as [|? [|? ?]], a3 as [|? [|? ?]];
      first [left; reflexivity | right; eexists; reflexivity]. }
  unfold scalar_projection.
  change (row [a0; a1; a2; a3] 0) with (Ok a0).
  change (row [a0; a1; a2; a3] 1) with (Ok a1).
  change (row [a0; a1; a2; a3] 2) with (Ok a2).
  change (row [a0; a1; a2; a3] 3) with (Ok a3).
  cbn [bind_result]. rewrite Hx. cbn [bind_result].
  destruct Hy as [Hy | [y Hy]]; rewrite Hy; cbn [bind_result]; [split; reflexivity|].
  unfold np_dot. cbn [asarray np_asarray length]. rewrite Hdim. split; reflexivity.
Qed.

(** C6, as the script has it. Neither evaluator counts its paired samples.
    With fewer than two of them, in the file mode and in the dictionary
    mode alike, the session goes through projection, plot and correlation as
    any other: an exception of any of the three is raised on, and what the
    routines answer is returned as the coefficients. With no vector at all
    and anchors of one entry or more, the projection itself raises
    [ValueError]. And a session that raises is not set aside: its exception
    ends the run of either driver. *)
Theorem evaluators_make_no_sample_check (ext : externals) :
  (forall (f : file) (cgrs_sess : Z) (table : list csv_row) (ideology : list float)
          (names : list string) (out : list event) (vectors : ndarray)
          (axis_vectors : list (list float)) (labels : list string),
      members_csv ext cgrs_sess = Some table ->
      read_dwnominate_csv (float32 ext) table = (Ok (ideology, names), out) ->
      read_vec_file_with_axes (float32 ext) f = (Ok (vectors, axis_vectors, labels), []) ->
      (sample_size vectors < 2)%nat ->
      evaluate_ideology_projection ext (Some f) cgrs_sess =
        match scalar_projection (Array vectors) axis_vectors with
        | Raise e => (Raise e, out)
        | Ok (x_proj, _) =>
            match scatter_plot ext x_proj ideology names with
            | Ok _ => (correlate ext x_proj ideology, out)
            | Raise ValueError =>
                (correlate ext x_proj ideology, out ++ [FailedToGraph cgrs_sess])
            | Raise e => (Raise e, out)
            end
        end)
  /\ (forall (vec_dict : gmap string (list float)) (axis_vectors : list (list float))
             (cgrs_sess : Z) (table : list csv_row) (ideology : list float)
             (senators : list string) (out : list event),
        members_csv ext cgrs_sess = Some table ->
        read_dwnominate_csv (float32 ext) table = (Ok (ideology, senators), out) ->
        (length (retained vec_dict senators ideology) < 2)%nat ->
        let kept := retained vec_dict senators ideology in
        let out' := out ++ report_missing cgrs_sess (absent vec_dict senators) in
        dict_session ext vec_dict axis_vectors cgrs_sess =
          match scalar_projection (PyList (map vector_of kept)) axis_vectors with
          | Raise e => (Raise e, out')
          | Ok (x_proj, _) =>
              match scatter_plot ext x_proj (map score_of kept) (map name_of kept) with
              | Raise e => (Raise e, out')
              | Ok _ => (correlate ext x_proj (map score_of kept), out')
              end
          end)
  /\ (forall a0 a1 a2 a3 : list float,
        length a0 = length a1 -> a0 <> [] ->
        scalar_projection (Array (Vec [])) [a0; a1; a2; a3] = Raise ValueError
        /\ scalar_projection (PyList []) [a0; a1; a2; a3] = Raise ValueError)
  /\ (forall (vec_file : Z -> option file) (start stop : Z),
        Exists (fails ext vec_file) (range start stop) ->
        exists e, outcome (compare_among_years ext vec_file start stop) = Raise e)
  /\ (forall (vec_dict : gmap string (list float)) (axis_vectors : list (list float))
             (start stop : Z),
        bind_result (map_result (getitem vec_dict) axis) np_matrix = Ok axis_vectors ->
        Exists (dict_fails ext vec_dict axis_vectors) (range start stop) ->
        exists e, outcome (dict_compare_among_years ext vec_dict start stop) = Raise e).
Proof.
  split; [|split; [|split; [|split]]].
  - intros f cgrs_sess table ideology names out vectors axis_vectors labels
      Htable Hcsv Hfile _.
    destruct (scalar_projection (Array vectors) axis_vectors) as [[x_proj y_proj]|e] eqn:Hproj.
    + exact (evaluate_ideology_projection_steps ext f cgrs_sess table ideology names out
               vectors axis_vectors labels x_proj y_proj Htable Hcsv Hfile Hproj).
    + exact (evaluate_ideology_projection_projection_raises ext f cgrs_sess table ideology
               names out vectors axis_vectors labels e Htable Hcsv Hfile Hproj).
  - intros vec_dict axis_vectors cgrs_sess table ideology senators out Htable Hcsv _.
    exact (dict_session_steps ext vec_dict axis_vectors cgrs_sess table ideology senators
             out Htable Hcsv).
  - exact scalar_projection_no_vectors.
  - intros vec_file start stop Hex.
    destruct (compare_loop_fails ext vec_file _ (PyInt 0) (PyInt 0) Hex) as [e He].
    exists e. unfold compare_among_years. rewrite outcome_bind, He. reflexivity.
  - intros vec_dict axis_vectors start stop Haxis Hex.
    destruct (dict_loop_fails ext vec_dict axis_vectors _ (PyInt 0) (PyInt 0) Hex) as [e He].
    exists e. unfold dict_compare_among_years.
    rewrite Haxis, bind_lift_ok, outcome_bind, He. reflexivity.
Qed.

Lemma evaluators_make_no_sample_check_witness :
  evaluate_ideology_projection (checked_externals (every_session one_row_table))
    (Some one_vector_file) 97 = (Raise ValueError, []).
Proof.
  rewrite (proj1 (evaluators_make_no_sample_check
                    (checked_externals (every_session one_row_table)))
             one_vector_file 97 one_row_table [F32.of_Z 1] ["alice"] []
             (Mat 2 [[F32.of_Z 1; F32.zero]]) scenario_anchors ["alice"]
             eq_refl eq_refl eq_refl).
  - reflexivity.
  - simpl. lia.
Defined.

(** C6 fails on the script. In the dictionary mode a session none of
    whose names is a key raises [ValueError] from the projection, whatever
    the plot and the correlation routines are, and the run ends there. In
    the file mode a session with one pair hands it to the correlation
    routine; a routine that refuses a single pair raises from inside the
    evaluator, and the run over the range ends without an average. *)
Lemma fewer_than_two_pairs_crash :
  (fun plot pearson spearman =>
     dict_compare_among_years
       (externals_with plot pearson spearman (every_session two_row_table))
       anchors_only_dict 97 98) =
  (fun _ _ _ => (Raise ValueError, [SessionMissing 97 ["alice"; "bob"]]))
  /\ evaluate_ideology_projection (checked_externals (every_session one_row_table))
       (Some one_vector_file) 97 = (Raise ValueError, [])
  /\ compare_among_years (checked_externals (every_session one_row_table))
       (fun _ => Some one_vector_file) 97 98 = (Raise ValueError, []).
Proof. repeat split; vm_compute; reflexivity. Qed.

(** * Further properties of the script *)

(** ** Splitting lines *)

Lemma split_from_lstrip (s : string) :
  Text.split_from [] (Text.lstrip s) = Text.split_from [] s.
Proof.
  induction s as [|c s IH]; [reflexivity|]. simpl.
  destruct (Text.is_space c) eqn:Hc; [exact IH|]. simpl. rewrite Hc. reflexivity.
Qed.

Lemma split_from_flush (tok : list ascii) (c : ascii) (s : string) :
  Text.is_space c = true ->
  Text.split_from tok (String c s) = flush tok ++ Text.split_from [] s.
Proof. intros Hc. simpl. rewrite Hc. destruct tok; reflexivity. Qed.

Lemma rstrip_empty_split (s : string) :
  Text.rstrip s = EmptyString -> forall tok, Text.split_from tok s = flush tok.
Proof.
  induction s as [|c s IH]; intros H tok; [destruct tok; reflexivity|].
  simpl in H. destruct (Text.rstrip s) eqn:Hr; [|discriminate].
  destruct (Text.is_space c) eqn:Hc; [|discriminate].
  rewrite (split_from_flush _ _ _ Hc), (IH eq_refl []). apply app_nil_r.
Qed.

Lemma split_from_rstrip (s : string) (tok : list ascii) :
  Text.split_from tok (Text.rstrip s) = Text.split_from tok s.
Proof.
  revert tok. induction s as [|c s IH]; intros tok; [reflexivity|].
  simpl Text.rstrip. destruct (Text.rstrip s) as [|c2 t] eqn:Hr.
  - pose proof (rstrip_empty_split s Hr) as Hs.
    destruct (Text.is_space c) eqn:Hc.
    + rewrite (split_from_flush _ _ _ Hc), (Hs []), app_nil_r. destruct tok; reflexivity.
    + simpl. rewrite Hc, (Hs (c :: tok)). reflexivity.
  - simpl. destruct (Text.is_space c); rewrite <- !IH; reflexivity.
Qed.

(** [line.strip().split()] is [line.split()]: stripping a line before
    splitting it changes nothing. *)
Lemma split_strip (s : string) : Text.split (Text.strip s) = Text.split s.
Proof.
  unfold Text.split, Text.strip. rewrite split_from_rstrip. apply split_from_lstrip.
Qed.




Lemma split_from_nil (s : string) (tok : list ascii) :
  Text.split_from tok s = [] <-> tok = [] /\ all_space s.
Proof.
  revert tok. induction s as [|c s IH]; intros tok.
  - simpl. split.
    + destruct tok; [split; [reflexivity | constructor] | discriminate].
    + intros [-> _]. reflexivity.
  - unfold all_space. simpl list_ascii_of_string. rewrite Forall_cons.
    destruct (Text.is_space c) eqn:Hc.
    + rewrite (split_from_flush _ _ _ Hc). split.
      * intros H. apply app_eq_nil in H. destruct H as [Hf Hs].
        apply IH in Hs. destruct Hs as [_ Hs].
        destruct tok; [|discriminate]. repeat split; assumption.
      * intros [-> [_ Hs]]. simpl. apply IH. split; [reflexivity | exact Hs].
    + simpl. rewrite Hc. rewrite IH. split.
      * intros [H _]. discriminate.
      * intros [_ [H _]]. discriminate.
Qed.

Lemma parse_vector_all_space (line : string) :
  all_space line <-> parse_vector line = Raise IndexError.
Proof.
  unfold parse_vector. rewrite split_strip.
  pose proof (split_from_nil line []) as Hnil.
  unfold Text.split. destruct (Text.split_from [] line) as [|label vector].
  - split; [reflexivity|]. intros _. apply Hnil. reflexivity.
  - split; [|discriminate]. intros H.
    assert (Hempty : label :: vector = []) by (apply Hnil; split; [reflexivity | exact H]).
    discriminate.
Qed.










(** ** The readers on malformed files *)

Lemma parse_vector_raises_IndexError (line : string) (e : exn) :
  parse_vector line = Raise e -> e = IndexError.
Proof.
  unfold parse_vector. destruct (Text.split (Text.strip line)); [|discriminate].
  intros [= <-]. reflexivity.
Qed.

Lemma parse_lines_blank (body : file) :
  Exists all_space body -> parse_lines body = Raise IndexError.
Proof.
  unfold parse_lines. induction body as [|line rest IH]; intros H; [inversion H|].
  simpl. destruct (parse_vector line) as [entry|e] eqn:Hline.
  - inversion H as [? ? Hblank|? ? Hrest]; subst.
    + apply parse_vector_all_space in Hblank. congruence.
    + rewrite (IH Hrest). reflexivity.
  - apply parse_vector_raises_IndexError in Hline. subst. reflexivity.
Qed.

Lemma read_header_refuses (f : file) :
  length (Text.split (Text.strip (fst (readline f)))) <> 2%nat ->
  read_header f = Raise ValueError.
Proof.
  unfold read_header. destruct (readline f) as [line rest]. cbn [fst].
  destruct (Text.split (Text.strip line)) as [|a [|b [|c l]]]; intros H;
    try reflexivity. contradiction H. reflexivity.
Qed.

(** X3. A first line that does not split into exactly two tokens makes
    both readers of headed files raise [ValueError] before any other line is
    looked at; the empty file, whose first line reads as the empty string, is
    such a file. *)
Theorem headed_readers_refuse_header (float32 : string -> option float) (f : file) :
  length (Text.split (Text.strip (fst (readline f)))) <> 2%nat ->
  read_vec_file float32 f = (Raise ValueError, [])
  /\ read_vec_file_as_dict float32 f = (Raise ValueError, []).
Proof.
  intros H. apply read_header_refuses in H.
  unfold read_vec_file, read_vec_file_as_dict. rewrite H. split; reflexivity.
Qed.

Lemma headed_readers_refuse_header_witness :
  read_vec_file float32_literal [] = (Raise ValueError, [])
  /\ read_vec_file_as_dict float32_literal ["3 2 1
"; "coffee 1 0
"] = (Raise ValueError, []).
Proof.
  split.
  - apply (headed_readers_refuse_header float32_literal []). simpl. lia.
  - apply (headed_readers_refuse_header float32_literal ["3 2 1
"; "coffee 1 0
"]). simpl. lia.
Defined.

(** X4. In a file with a sound header, one line of white space anywhere
    below it, the last line included, makes [read_vec_file] raise
    [IndexError]: the lines are all parsed before any number is converted
    or any shape compared. *)
Theorem read_vec_file_blank_line
    (float32 : string -> option float) (header : string) (body : file) (vs ed : string) :
  Text.split (Text.strip header) = [vs; ed] ->
  Exists all_space body ->
  read_vec_file float32 (header :: body) = (Raise IndexError, []).
Proof.
  intros Hh Hblank. unfold read_vec_file.
  rewrite (read_header_cons _ _ _ _ Hh), bind_lift_ok.
  rewrite (parse_lines_blank body Hblank). reflexivity.
Qed.

Lemma read_vec_file_blank_line_witness :
  read_vec_file float32_literal ["1 2
"; "alice 1 0
"; "
"] = (Raise IndexError, []).
Proof.
  apply (read_vec_file_blank_line float32_literal "1 2
" ["alice 1 0
"; "
"] "1" "2" eq_refl).
  apply Exists_cons_tl, Exists_cons_hd. repeat constructor.
Defined.

(** X5. A headed file without a single vector line is never found in
    order: numpy makes the empty list the one-dimensional array of shape
    (0,), which equals no pair, so [read_vec_file] prints the shape warning
    under every integer header, "0 0" included, and returns the empty array
    with no label. *)
Theorem read_vec_file_no_vectors
    (float32 : string -> option float) (header vs ed : string) (n d : Z) :
  Text.split (Text.strip header) = [vs; ed] ->
  Text.int vs = Ok n -> Text.int ed = Ok d ->
  read_vec_file float32 [header] = (Ok (Vec [], []), [ShapeWarning vs ed [0]]).
Proof.
  intros Hh Hn Hd. unfold read_vec_file.
  rewrite (read_header_cons _ _ _ _ Hh), bind_lift_ok. cbn [parse_lines map_result].
  rewrite bind_lift_ok. cbn [map np_array2 map_result np_asarray].
  rewrite bind_lift_ok. cbn [np_shape length Z.of_nat].
  rewrite (validate_shape_ints _ _ _ _ _ Hn Hd), bind_ok.
  unfold shape_eqb. rewrite bool_decide_eq_false_2 by discriminate. reflexivity.
Qed.

Lemma read_vec_file_no_vectors_witness :
  read_vec_file float32_literal ["0 0
"] = (Ok (Vec [], []), [ShapeWarning "0" "0" [0]]).
Proof.
  exact (read_vec_file_no_vectors float32_literal "0 0
" "0" "0" 0 0 eq_refl eq_refl eq_refl).
Defined.

Lemma int_raises_ValueError (s : string) (e : exn) :
  Text.int s = Raise e -> e = ValueError.
Proof.
  unfold Text.int.
  destruct s as [|c s]; [intros [= <-]; reflexivity|].
  destruct c as [[] [] [] [] [] [] [] []];
    match goal with
    | |- context [Text.int_digits ?a ?b ?x] => destruct (Text.int_digits a b x)
    end; intros H; inversion H; reflexivity.
Qed.

(** X6. A header token that [int] refuses turns the shape check of
    [read_vec_file] from a warning into a failure: the file is read and
    converted in full, and then [ValueError] is raised instead of the array
    being returned. *)
Theorem read_vec_file_header_not_integers
    (float32 : string -> option float) (header : string) (body : file)
    (vs ed : string) (entries : list (list string * string)) (vectors : ndarray) :
  Text.split (Text.strip header) = [vs; ed] ->
  parse_lines body = Ok entries ->
  np_array2 float32 (map fst entries) = Ok vectors ->
  (forall n, Text.int vs <> Ok n) \/ (forall d, Text.int ed <> Ok d) ->
  read_vec_file float32 (header :: body) = (Raise ValueError, []).
Proof.
  intros Hh Hb Ha Hbad. unfold read_vec_file.
  rewrite (read_header_cons _ _ _ _ Hh), bind_lift_ok.
  rewrite Hb, bind_lift_ok, Ha, bind_lift_ok.
  unfold validate_shape.
  destruct (Text.int vs) as [n|e] eqn:Hn.
  - destruct Hbad as [Hbad | Hbad]; [exfalso; apply (Hbad n); reflexivity|].
    rewrite bind_lift_ok.
    destruct (Text.int ed) as [d|e] eqn:Hd; [exfalso; apply (Hbad d); reflexivity|].
    apply int_raises_ValueError in Hd. subst. reflexivity.
  - apply int_raises_ValueError in Hn. subst. reflexivity.
Qed.

Lemma read_vec_file_header_not_integers_witness :
  read_vec_file float32_literal ["1 2.0
"; "alice 1 0
"] = (Raise ValueError, []).
Proof.
  apply (read_vec_file_header_not_integers float32_literal "1 2.0
" ["alice 1 0
"] "1" "2.0" [(["1"; "0"], "alice")] (Mat 2 [[F32.of_Z 1; F32.zero]])
           eq_refl eq_refl eq_refl).
  right. intros d. discriminate.
Defined.

(** ** Arrays from lists of rows *)

Lemma np_asarray_ok (rows : list (list float)) (a : ndarray) :
  np_asarray rows = Ok a ->
  (rows = [] /\ a = Vec [])
  \/ (exists cols, rows <> [] /\ a = Mat cols rows
                   /\ Forall (fun r => length r = cols) rows).
Proof.
  destruct rows as [|r rest]; simpl.
  - intros [= <-]. left. split; reflexivity.
  - destruct (forallb (fun r' => Nat.eqb (length r') (length r)) rest) eqn:Hall;
      [|discriminate].
    intros [= <-]. right. exists (length r). split; [discriminate|]. split; [reflexivity|].
    constructor; [reflexivity|].
    rewrite forallb_forall in Hall. apply List.Forall_forall. intros x Hx.
    apply Nat.eqb_eq. apply Hall. exact Hx.
Qed.

Lemma np_asarray_ragged (rows : list (list float)) (r1 r2 : list float) :
  In r1 rows -> In r2 rows -> length r1 <> length r2 ->
  np_asarray rows = Raise ValueError.
Proof.
  intros H1 H2 Hne. destruct (np_asarray rows) as [a|e] eqn:Ha.
  - exfalso. apply np_asarray_ok in Ha. destruct Ha as [[-> _] | [cols [_ [_ Hall]]]].
    + inversion H1.
    + rewrite List.Forall_forall in Hall.
      apply Hne. rewrite (Hall r1 H1), (Hall r2 H2). reflexivity.
  - destruct rows as [|r rest]; [discriminate|]. simpl in Ha.
    destruct (forallb _ rest); inversion Ha. reflexivity.
Qed.

Lemma np_array2_rows (float32 : string -> option float) (toks : list (list string))
    (a : ndarray) :
  np_array2 float32 toks = Ok a ->
  exists rows, map_result (np_array1 float32) toks = Ok rows /\ np_asarray rows = Ok a.
Proof.
  unfold np_array2. destruct (map_result (np_array1 float32) toks) as [rows|e];
    [|discriminate].
  intros H. exists rows. split; [reflexivity | exact H].
Qed.

(** X7. When [read_vec_file] returns without the warning, the header
    tells the truth about what is returned: as many labels and rows as the
    declared vocabulary size, their order that of the lines, and every row of
    the declared dimension. *)
Theorem read_vec_file_header_agrees
    (float32 : string -> option float) (header : string) (body : file)
    (vs ed : string) (n d : Z) (vectors : ndarray) (labels : list string) :
  Text.split (Text.strip header) = [vs; ed] ->
  Text.int vs = Ok n ->
  Text.int ed = Ok d ->
  read_vec_file float32 (header :: body) = (Ok (vectors, labels), []) ->
  Z.of_nat (length body) = n
  /\ length labels = length body
  /\ exists rows,
       vectors = Mat (Z.to_nat d) rows
       /\ length rows = length body
       /\ Forall (fun r => Z.of_nat (length r) = d) rows.
Proof.
  intros Hh Hn Hd. unfold read_vec_file.
  rewrite (read_header_cons _ _ _ _ Hh), bind_lift_ok.
  destruct (parse_lines body) as [entries|e] eqn:Hb; [|discriminate].
  rewrite bind_lift_ok.
  destruct (np_array2 float32 (map fst entries)) as [a|e] eqn:Ha; [|discriminate].
  rewrite bind_lift_ok, (validate_shape_ints _ _ _ _ _ Hn Hd), bind_ok.
  cbn [ret fst snd]. rewrite app_nil_r. unfold shape_eqb.
  destruct (bool_decide_reflect (np_shape a = [n; d])) as [Hshape|_]; [|discriminate].
  intros [= <- <-].
  pose proof (map_result_length _ _ _ Hb) as Hlen.
  apply np_array2_rows in Ha. destruct Ha as [rows [Hrows Ha]].
  pose proof (map_result_length _ _ _ Hrows) as Hlen'. rewrite length_map in Hlen'.
  apply np_asarray_ok in Ha. destruct Ha as [[-> ->] | [cols [_ [-> Hall]]]];
    [discriminate|].
  cbn [np_shape] in Hshape. injection Hshape as Hn' Hd'.
  rewrite length_map. split; [lia|]. split; [exact Hlen|].
  exists rows. subst d. rewrite Nat2Z.id. split; [reflexivity|]. split; [lia|].
  eapply Forall_impl; [exact Hall|]. intros r Hr. simpl in Hr. lia.
Qed.

Lemma read_vec_file_header_agrees_witness :
  Z.of_nat (length ["alice 1 0
"; "bob 0 1
"; "carol -1 0
"]) = 3
  /\ length ["alice"; "bob"; "carol"] = 3%nat.
Proof.
  destruct (read_vec_file_header_agrees float32_literal "3 2
" ["alice 1 0
"; "bob 0 1
"; "carol -1 0
"] "3" "2" 3 2 (Mat 2 scenario_vectors) ["alice"; "bob"; "carol"]
              eq_refl eq_refl eq_refl eq_refl) as [H1 [H2 _]].
  split; [exact H1 | exact H2].
Defined.

(** X8. [read_vec_file] refuses ragged rows: two lines with different
    numbers of components, all of them convertible, raise [ValueError] when
    the rows are made an array, whatever the header declares. *)
Theorem read_vec_file_ragged
    (float32 : string -> option float) (header : string) (body : file) (vs ed : string)
    (entries : list (list string * string)) (rows : list (list float))
    (r1 r2 : list float) :
  Text.split (Text.strip header) = [vs; ed] ->
  parse_lines body = Ok entries ->
  map_result (np_array1 float32) (map fst entries) = Ok rows ->
  In r1 rows -> In r2 rows -> length r1 <> length r2 ->
  read_vec_file float32 (header :: body) = (Raise ValueError, []).
Proof.
  intros Hh Hb Hrows H1 H2 Hne. unfold read_vec_file.
  rewrite (read_header_cons _ _ _ _ Hh), bind_lift_ok, Hb, bind_lift_ok.
  unfold np_array2. rewrite Hrows, (np_asarray_ragged rows r1 r2 H1 H2 Hne). reflexivity.
Qed.

Lemma read_vec_file_ragged_witness :
  read_vec_file float32_literal ragged_coffee_file = (Raise ValueError, []).
Proof.
  apply (read_vec_file_ragged float32_literal "2 2
" (tail ragged_coffee_file) "2" "2"
           [(["1"; "0"; "5"; "7"], "tea"); (["0"; "1"], "coffee")]
           [[F32.of_Z 1; F32.zero; F32.of_Z 5; F32.of_Z 7]; [F32.zero; F32.of_Z 1]]
           [F32.of_Z 1; F32.zero; F32.of_Z 5; F32.of_Z 7] [F32.zero; F32.of_Z 1]
           eq_refl eq_refl eq_refl).
  - left. reflexivity.
  - right. left. reflexivity.
  - simpl. lia.
Defined.

(** ** The reader of files with anchors *)

Section AxesReader.

Variable float32 : string -> option float.

Lemma read_axes_result (n : nat) (f : file) :
  read_axes n f = Raise IndexError
  \/ exists axes,
       read_axes n f = Ok (axes, drop n f)
       /\ (n <= length f)%nat
       /\ Forall2 (fun line entry => parse_vector line = Ok entry) (take n f) axes.
Proof.
  revert f. induction n as [|n IH]; intros f.
  - right. exists []. repeat split; [lia | constructor].
  - cbn [read_axes]. destruct f as [|line rest]; cbn [readline].
    + left. reflexivity.
    + destruct (parse_vector line) as [entry|e] eqn:Hline.
      * destruct (IH rest) as [Hr | [axes [Hr [Hlen Hall]]]]; rewrite Hr.
        -- left. reflexivity.
        -- right. exists (entry :: axes). repeat split; [simpl; lia|].
           simpl. constructor; assumption.
      * apply parse_vector_raises_IndexError in Hline. subst. left. reflexivity.
Qed.

(** X9. [read_vec_file_with_axes] raises [IndexError], and does nothing
    else, on every file of fewer than four lines and on every file with a
    line of white space, wherever the line stands. *)
Theorem read_vec_file_with_axes_short_or_blank (f : file) :
  (length f < 4)%nat \/ Exists all_space f ->
  read_vec_file_with_axes float32 f = (Raise IndexError, []).
Proof.
  intros H. unfold read_vec_file_with_axes.
  destruct (read_axes_result 4 f) as [Hr | [axes [Hr [Hlen Hall]]]]; rewrite Hr;
    [reflexivity|].
  rewrite bind_lift_ok. destruct H as [H | H]; [lia|].
  rewrite <- (take_drop 4 f) in H. apply Exists_app in H. destruct H as [H | H].
  - exfalso. clear Hr Hlen. induction Hall as [|line entry lines axes Hline _ IH].
    + inversion H.
    + inversion H as [? ? Hblank|? ? Hrest]; subst.
      * apply parse_vector_all_space in Hblank. congruence.
      * apply IH. exact Hrest.
  - rewrite (parse_lines_blank _ H). reflexivity.
Qed.

End AxesReader.

Lemma read_vec_file_with_axes_short_or_blank_witness :
  read_vec_file_with_axes float32_literal ["conservative 1 0
"; "liberal -1 0
"; "good 0 1
"] = (Raise IndexError, [])
  /\ read_vec_file_with_axes float32_literal (one_vector_file ++ ["
"]) = (Raise IndexError, []).
Proof.
  split.
  - apply (read_vec_file_with_axes_short_or_blank float32_literal). left. simpl. lia.
  - apply (read_vec_file_with_axes_short_or_blank float32_literal). right.
    do 5 apply Exists_cons_tl. apply Exists_cons_hd. repeat constructor.
Defined.


Lemma read_axes_parsed (anchors : list string) (entries : list (list string * string))
    (body : file) :
  Forall2 (fun line entry => parse_vector line = Ok entry) anchors entries ->
  read_axes (length anchors) (anchors ++ body) = Ok (entries, body).
Proof.
  induction 1 as [|line entry anchors entries Hline _ IH]; [reflexivity|].
  cbn [length app read_axes readline]. rewrite Hline, IH. reflexivity.
Qed.

(** X10. The first four lines of a file with anchors are taken as the
    anchors whatever their labels are: [read_vec_file_with_axes] never looks
    at them, and two files that differ in nothing but the labels of their
    first four lines read to the same arrays and labels. *)
Theorem read_vec_file_with_axes_ignores_anchor_labels
    (float32 : string -> option float) (anchors anchors' : list string)
    (entries entries' : list (list string * string)) (body : file) :
  length anchors = 4%nat -> length anchors' = 4%nat ->
  Forall2 (fun line entry => parse_vector line = Ok entry) anchors entries ->
  Forall2 (fun line entry => parse_vector line = Ok entry) anchors' entries' ->
  map fst entries = map fst entries' ->
  read_vec_file_with_axes float32 (anchors ++ body) =
  read_vec_file_with_axes float32 (anchors' ++ body).
Proof.
  intros H4 H4' Hp Hp' Hsame. unfold read_vec_file_with_axes.
  rewrite <- H4 at 1. rewrite <- H4'.
  rewrite (read_axes_parsed _ _ body Hp), (read_axes_parsed _ _ body Hp').
  rewrite !bind_lift_ok. rewrite Hsame. reflexivity.
Qed.

Lemma read_vec_file_with_axes_ignores_anchor_labels_witness :
  read_vec_file_with_axes float32_literal two_vector_file =
  read_vec_file_with_axes float32_literal
    (["bad 1 0
"; "good -1 0
"; "liberal 0 1
"; "conservative 0 -1
"] ++ ["alice 1 0
"; "bob -1 0
"]).
Proof.
  apply (read_vec_file_with_axes_ignores_anchor_labels float32_literal anchor_lines _
           [(["1"; "0"], "conservative"); (["-1"; "0"], "liberal");
            (["0"; "1"], "good"); (["0"; "-1"], "bad")]
           [(["1"; "0"], "bad"); (["-1"; "0"], "good");
            (["0"; "1"], "liberal"); (["0"; "-1"], "conservative")]);
    try reflexivity; repeat constructor.
Defined.

(** ** The size of the dictionary *)

Lemma dom_assign_all (entries : list (string * list float))
    (d : gmap string (list float)) :
  dom (assign_all entries d) = list_to_set (map fst entries) ∪ dom d.
Proof.
  revert d. induction entries as [|[l v] rest IH]; intros d.
  - simpl. rewrite union_empty_l_L. reflexivity.
  - unfold assign_all in *. simpl. rewrite IH, dom_insert_L.
    rewrite (assoc_L (∪)), (comm_L (∪) _ {[l]}). reflexivity.
Qed.

Lemma size_assign_all (entries : list (string * list float)) :
  size (assign_all entries ∅) = length (remove_dups (map fst entries)).
Proof.
  rewrite <- size_dom, dom_assign_all, dom_empty_L, union_empty_r_L.
  rewrite <- (size_list_to_set (C := gset string) (remove_dups (map fst entries)))
    by apply NoDup_remove_dups.
  f_equal. apply set_eq. intros x.
  rewrite !elem_of_list_to_set, elem_of_remove_dups. reflexivity.
Qed.

(** X11. [read_vec_file_as_dict] compares the header with the number of
    DISTINCT labels and the length of the 'coffee' vector: on a file it can
    read, the warning is absent exactly when these two are the declared
    values. A header that counts the lines of a file with a repeated label
    therefore draws the warning. *)
Theorem read_vec_file_as_dict_counts_distinct_labels
    (float32 : string -> option float) (header : string) (body : file)
    (vs ed : string) (n d : Z) (entries : list (string * list float))
    (coffee : list float) :
  Text.split (Text.strip header) = [vs; ed] ->
  Text.int vs = Ok n ->
  Text.int ed = Ok d ->
  map_result (parse_entry float32) body = Ok entries ->
  last_with "coffee" entries = Some coffee ->
  let distinct := Z.of_nat (length (remove_dups (map fst entries))) in
  let dimension := Z.of_nat (length coffee) in
  printed (read_vec_file_as_dict float32 (header :: body)) =
    if (distinct =? n) && (dimension =? d) then []
    else [ShapeWarning vs ed [distinct; dimension]].
Proof.
  intros Hh Hn Hd Hb Hc distinct dimension.
  rewrite (read_vec_file_as_dict_parsed _ _ _ _ _ _ Hh Hb), Hc.
  rewrite (validate_shape_ints _ _ _ _ _ Hn Hd), bind_ok. cbn [ret printed fst snd].
  rewrite app_nil_r, size_assign_all. fold distinct dimension. unfold shape_eqb.
  destruct (Z.eqb_spec distinct n) as [->|Hne]; simpl.
  - destruct (Z.eqb_spec dimension d) as [->|Hne].
    + rewrite bool_decide_eq_true_2; reflexivity.
    + rewrite bool_decide_eq_false_2; [reflexivity | congruence].
  - rewrite bool_decide_eq_false_2; [reflexivity | congruence].
Qed.

Lemma read_vec_file_as_dict_counts_distinct_labels_witness :
  printed (read_vec_file_as_dict float32_literal duplicate_labels_file) =
    [ShapeWarning "3" "2" [2; 2]].
Proof.
  exact (read_vec_file_as_dict_counts_distinct_labels float32_literal "3 2
" (tail duplicate_labels_file) "3" "2" 3 2
           [("coffee", [F32.of_Z 1; F32.zero]); ("tea", [F32.zero; F32.of_Z 1]);
            ("coffee", [F32.of_Z 2; F32.of_Z 2])]
           [F32.of_Z 2; F32.of_Z 2] eq_refl eq_refl eq_refl eq_refl eq_refl).
Defined.

(** ** The reference table *)

Lemma csv_loop_closed (rows : list csv_row) :
  csv_loop rows = (map score_token rows, map raw_name rows, unscored rows).
Proof.
  induction rows as [|r rows IH]; [reflexivity|].
  cbn [csv_loop]. rewrite IH. unfold unscored, score_token, raw_name. simpl.
  destruct (truthy (dim1 r)); reflexivity.
Qed.

Lemma read_dwnominate_csv_closed (float32 : string -> option float) (rows : list csv_row) :
  read_dwnominate_csv float32 rows =
    (bind_result (np_array1 float32 (map score_token rows)) (fun ideology =>
       Ok (ideology, map (fun r => reformat_name (raw_name r)) rows)),
     report_unscored rows).
Proof.
  unfold read_dwnominate_csv, report_unscored. rewrite csv_loop_closed.
  rewrite (map_map raw_name reformat_name).
  destruct (unscored rows) as [|m ms]; [rewrite bind_ret | rewrite bind_print];
    destruct (np_array1 float32 (map score_token rows)); reflexivity.
Qed.

(** X12. [read_dwnominate_csv] row by row. The scores are the
    conversions of the score column, with the token 0 where it is empty; the
    names are the bionames, tagged where the score is empty, then cut and
    lowered; both in the order of the rows. The bionames without a score are
    printed in one message, in that order, when there is any, and they are
    printed before a score that does not convert raises [ValueError]. *)
Theorem read_dwnominate_csv_row_by_row
    (float32 : string -> option float) (rows : list csv_row) :
  read_dwnominate_csv float32 rows =
    (bind_result (np_array1 float32 (map score_token rows)) (fun ideology =>
       Ok (ideology, map (fun r => reformat_name (raw_name r)) rows)),
     report_unscored rows).
Proof. apply read_dwnominate_csv_closed. Qed.

(** *** Names after [reformat_name] *)

Lemma lower_ascii_facts (c : ascii) :
  is_upper (Text.lower_ascii c) = false
  /\ Text.lower_ascii (Text.lower_ascii c) = Text.lower_ascii c
  /\ (Ascii.eqb (Text.lower_ascii c) Text.comma = Ascii.eqb c Text.comma).
Proof. destruct c as [[] [] [] [] [] [] [] []]; vm_compute; repeat split. Qed.

Lemma sub_comma_from_no_comma (st : bool) (s : string) :
  has_char Text.comma (Text.sub_comma_from st s) = false.
Proof.
  revert st. induction s as [|c s IH]; intros st; [destruct st; reflexivity|].
  destruct st; simpl.
  - destruct (Ascii.eqb_spec c Text.newline) as [->|_]; [|apply IH].
    simpl. apply IH.
  - destruct (Ascii.eqb c Text.comma) eqn:Hc; [apply IH|].
    simpl. rewrite Hc. apply IH.
Qed.

Lemma lower_no_comma (s : string) :
  has_char Text.comma (Text.lower s) = has_char Text.comma s.
Proof.
  induction s as [|c s IH]; [reflexivity|]. simpl.
  rewrite IH. destruct (lower_ascii_facts c) as [_ [_ ->]]. reflexivity.
Qed.

Lemma sub_comma_id (s : string) :
  has_char Text.comma s = false -> Text.sub_comma s = s.
Proof.
  unfold Text.sub_comma. induction s as [|c s IH]; [reflexivity|]. simpl.
  intros H. apply orb_false_iff in H. destruct H as [Hc Hs].
  rewrite Hc, (IH Hs). reflexivity.
Qed.

Lemma lower_lower (s : string) : Text.lower (Text.lower s) = Text.lower s.
Proof.
  induction s as [|c s IH]; [reflexivity|]. simpl.
  destruct (lower_ascii_facts c) as [_ [-> _]]. rewrite IH. reflexivity.
Qed.

Lemma lower_no_upper (s : string) :
  all_chars (fun c => negb (is_upper c)) (Text.lower s) = true.
Proof.
  induction s as [|c s IH]; [reflexivity|]. simpl.
  destruct (lower_ascii_facts c) as [-> _]. exact IH.
Qed.

(** X13. The names [read_dwnominate_csv] produces are in normal form: a
    name holds no comma and no capital ASCII letter, and cutting and lowering
    it again leaves it as it is. *)
Theorem reformat_name_normal_form (i : string) :
  has_char Text.comma (reformat_name i) = false
  /\ all_chars (fun c => negb (is_upper c)) (reformat_name i) = true
  /\ reformat_name (reformat_name i) = reformat_name i.
Proof.
  unfold reformat_name. split; [|split].
  - rewrite lower_no_comma. apply sub_comma_from_no_comma.
  - apply lower_no_upper.
  - rewrite (sub_comma_id (Text.lower (Text.sub_comma i))).
    + apply lower_lower.
    + rewrite lower_no_comma. apply sub_comma_from_no_comma.
Qed.

(** *** A row without a score in the dictionary mode *)

Lemma retained_lookup (vec_dict : gmap string (list float))
    (senators : list string) (ideology : list float)
    (i : nat) (w : string) (s : float) (v : list float) :
  senators !! i = Some w -> ideology !! i = Some s -> vec_dict !! w = Some v ->
  In (w, v, s) (retained vec_dict senators ideology).
Proof.
  revert ideology i. induction senators as [|w' ws IH]; intros ideology i Hw Hs Hv;
    [discriminate|].
  destruct ideology as [|s' ss]; [discriminate|].
  destruct i as [|i]; simpl in Hw, Hs.
  - injection Hw as ->. injection Hs as ->. simpl. rewrite Hv. left. reflexivity.
  - simpl. destruct (vec_dict !! w'); [right|]; apply (IH ss i Hw Hs Hv).
Qed.

Lemma map_result_lookup {A B} (f : A -> result B) (xs : list A) (ys : list B)
    (i : nat) (x : A) :
  map_result f xs = Ok ys -> xs !! i = Some x ->
  exists y, f x = Ok y /\ ys !! i = Some y.
Proof.
  revert ys i. induction xs as [|x' xs IH]; intros ys i H Hi; [discriminate|].
  simpl in H. destruct (f x') as [y'|] eqn:Hx'; [|discriminate].
  destruct (map_result f xs) as [ys'|] eqn:Hxs; [|discriminate].
  injection H as <-. destruct i as [|i]; simpl in Hi.
  - injection Hi as ->. exists y'. split; [exact Hx' | reflexivity].
  - destruct (IH ys' i eq_refl Hi) as [y [Hy Hl]]. exists y. split; assumption.
Qed.

(** X14. What the lost tag costs. A row "LAST, First" without a score
    is named like any other row, so when that name is a key of the
    dictionary the row is among the pairs the dictionary mode keeps and
    correlates, with the conversion of the token 0 as its score. *)
Theorem unscored_row_is_retained
    (float32 : string -> option float) (vec_dict : gmap string (list float))
    (rows : list csv_row) (ideology : list float) (senators : list string)
    (out : list event) (i : nat) (r : csv_row) (last rest : string) (v : list float) :
  read_dwnominate_csv float32 rows = (Ok (ideology, senators), out) ->
  rows !! i = Some r ->
  dim1 r = EmptyString ->
  bioname r = String.append last (String Text.comma rest) ->
  ~ In Text.newline (list_ascii_of_string rest) ->
  vec_dict !! reformat_name (bioname r) = Some v ->
  exists zero,
    float32 "0" = Some zero
    /\ In (reformat_name (bioname r), v, zero) (retained vec_dict senators ideology).
Proof.
  intros Hread Hi Hdim Hname Hrest Hv.
  rewrite read_dwnominate_csv_closed in Hread.
  destruct (np_array1 float32 (map score_token rows)) as [scores|e] eqn:Hscores;
    [|discriminate].
  injection Hread as <- <- _.
  assert (Htok : map score_token rows !! i = Some "0").
  { rewrite list_lookup_fmap, Hi. unfold score_token. simpl. rewrite Hdim. reflexivity. }
  destruct (map_result_lookup _ _ _ _ _ Hscores Htok) as [zero [Hzero Hlook]].
  unfold to_float32 in Hzero. destruct (float32 "0") as [z|] eqn:Hz; [|discriminate].
  injection Hzero as ->. exists zero. split; [reflexivity|].
  apply (retained_lookup vec_dict _ _ i); [|exact Hlook | exact Hv].
  rewrite list_lookup_fmap, Hi. simpl. f_equal.
  unfold raw_name. rewrite Hdim. simpl. rewrite Hname.
  apply missing_tag_lost_after_comma. exact Hrest.
Qed.

Lemma unscored_row_is_retained_witness :
  exists zero,
    float32_literal "0" = Some zero
    /\ In ("smith", [F32.of_Z 1; F32.zero], zero)
         (retained smith_dict ["smith"] [F32.zero]).
Proof.
  exact (unscored_row_is_retained float32_literal smith_dict [smith_row]
           [F32.zero] ["smith"] [MissingScores ["SMITH, John"]] 0 smith_row
           "SMITH" " John" [F32.of_Z 1; F32.zero]
           eq_refl eq_refl eq_refl eq_refl
           ltac:(simpl; intros [H|[H|[H|[H|[H|H]]]]]; try discriminate H; exact H)
           eq_refl).
Defined.

(** ** Projection on arrays it cannot take *)

Lemma build_axis_raises_ValueError (p n : list float) (e : exn) :
  build_axis p n = Raise e -> e = ValueError.
Proof.
  unfold build_axis, np_sub1. destruct (Nat.eqb (length p) (length n)); [discriminate|].
  destruct p as [|? [|? ?]], n as [|? [|? ?]]; intros H; inversion H; reflexivity.
Qed.

(** When the inner product with the x axis is refused, so is the
    projection: nothing before it raises anything else. *)
Lemma scalar_projection_x_refused (vectors : array_like) (a0 a1 a2 a3 : list float) :
  length a0 = length a1 ->
  np_dot vectors (unit_axis a0 a1) = Raise ValueError ->
  scalar_projection vectors [a0; a1; a2; a3] = Raise ValueError.
Proof.
  intros Hlen Hdot. unfold scalar_projection.
  change (row [a0; a1; a2; a3] 0) with (Ok a0).
  change (row [a0; a1; a2; a3] 1) with (Ok a1).
  change (row [a0; a1; a2; a3] 2) with (Ok a2).
  change (row [a0; a1; a2; a3] 3) with (Ok a3).
  cbn [bind_result]. rewrite (build_axis_unit_axis a0 a1 Hlen). cbn [bind_result].
  destruct (build_axis a2 a3) as [y|e] eqn:Hy; cbn [bind_result].
  - rewrite Hdot. reflexivity.
  - apply build_axis_raises_ValueError in Hy. subst. reflexivity.
Qed.

(** X15. Vectors of a dimension other than the anchors' are refused:
    [scalar_projection] raises [ValueError] from the inner product, whatever
    the number of vectors, zero included. *)
Theorem scalar_projection_dimension_mismatch
    (cols : nat) (vectors : list (list float)) (a0 a1 a2 a3 : list float) :
  length a0 = length a1 -> cols <> length a0 ->
  scalar_projection (Array (Mat cols vectors)) [a0; a1; a2; a3] = Raise ValueError.
Proof.
  intros Hlen Hne. apply scalar_projection_x_refused; [exact Hlen|].
  unfold np_dot. cbn [asarray]. rewrite (length_unit_axis _ _ Hlen).
  destruct (Nat.eqb_spec cols (length a0)); [contradiction | reflexivity].
Qed.

Lemma scalar_projection_dimension_mismatch_witness :
  scalar_projection (Array (Mat 3 [[F32.of_Z 1; F32.zero; F32.zero]])) scenario_anchors =
    Raise ValueError.
Proof.
  apply (scalar_projection_dimension_mismatch 3 [[F32.of_Z 1; F32.zero; F32.zero]]
           [F32.of_Z 1; F32.zero] [F32.of_Z (-1); F32.zero]
           [F32.zero; F32.of_Z 1] [F32.zero; F32.of_Z (-1)] eq_refl).
  simpl. lia.
Defined.

(** *** Identical anchors *)

Lemma unit_axis_self (v : list float) : unit_axis v v = repeat F32.nan (length v).
Proof.
  unfold unit_axis.
  pose proof (zip_with_sub_self v) as Hdiff.
  pose proof (sqrt_zero_or_nan _ (dot1_zero_or_nan _ Hdiff)) as Hnorm.
  assert (Hlen : length (zip_with F32.sub v v) = length v).
  { rewrite length_zip_with. lia. }
  rewrite <- Hlen. revert Hdiff Hnorm.
  generalize (F32.sqrt (dot1 (zip_with F32.sub v v) (zip_with F32.sub v v))) as nrm.
  generalize (zip_with F32.sub v v) as diff. clear.
  intros diff nrm Hdiff Hnorm. induction Hdiff as [|x diff Hx _ IH]; simpl; [reflexivity|].
  rewrite (div_zero_or_nan _ _ Hx Hnorm), IH. reflexivity.
Qed.

Lemma dot1_nan_acc (ps : list (float * float)) :
  fold_left (fun acc p => F32.add acc (F32.mul (fst p) (snd p))) ps F32.nan = F32.nan.
Proof. induction ps as [|p ps IH]; [reflexivity|]. simpl. exact IH. Qed.

Lemma mul_nan_r (x : float) : F32.mul x F32.nan = F32.nan.
Proof. destruct x; reflexivity. Qed.

Lemma add_nan_r (x : float) : F32.add x F32.nan = F32.nan.
Proof. destruct x; reflexivity. Qed.

Lemma dot1_nan_axis (v : list float) (n : nat) :
  v <> [] -> length v = n -> dot1 v (repeat F32.nan n) = F32.nan.
Proof.
  intros Hne Hlen. destruct v as [|x v]; [contradiction|]. subst n.
  unfold dot1. simpl. rewrite mul_nan_r. apply dot1_nan_acc.
Qed.

(** X16. Identical anchors poison the projections without a sound: when
    the two x anchors are one vector of one entry or more, [scalar_projection]
    raises nothing and the x projection of every vector is NaN, while the y
    projections are what they would be anyhow. *)
Theorem scalar_projection_identical_x_anchors
    (cols : nat) (vectors : list (list float)) (v a2 a3 : list float) :
  (0 < cols)%nat ->
  length v = cols -> length a2 = cols -> length a3 = cols ->
  Forall (fun r => length r = cols) vectors ->
  scalar_projection (Array (Mat cols vectors)) [v; v; a2; a3] =
    Ok (Vec (repeat F32.nan (length vectors)),
        Vec (projections vectors (unit_axis a2 a3))).
Proof.
  intros Hpos Hv H2 H3 Hrows. unfold scalar_projection.
  change (row [v; v; a2; a3] 0) with (Ok v).
  change (row [v; v; a2; a3] 1) with (Ok v).
  change (row [v; v; a2; a3] 2) with (Ok a2).
  change (row [v; v; a2; a3] 3) with (Ok a3).
  cbn [bind_result].
  rewrite (build_axis_unit_axis v v eq_refl). cbn [bind_result].
  rewrite (build_axis_unit_axis a2 a3) by congruence. cbn [bind_result].
  unfold np_dot. cbn [asarray].
  rewrite (length_unit_axis v v eq_refl), (length_unit_axis a2 a3) by congruence.
  rewrite Hv, H2, Nat.eqb_refl. cbn [bind_result]. do 3 f_equal.
  rewrite unit_axis_self, Hv. clear -Hpos Hrows.
  induction Hrows as [|r rows Hr _ IH]; [reflexivity|].
  simpl. rewrite IH. f_equal. apply dot1_nan_axis; [|exact Hr].
  destruct r; [simpl in Hr; lia | discriminate].
Qed.

Lemma scalar_projection_identical_x_anchors_witness :
  scalar_projection (Array (Mat 2 scenario_vectors))
    [[F32.of_Z 1; F32.zero]; [F32.of_Z 1; F32.zero];
     [F32.zero; F32.of_Z 1]; [F32.zero; F32.of_Z (-1)]] =
  Ok (Vec [F32.nan; F32.nan; F32.nan], Vec [F32.zero; F32.of_Z 1; F32.zero]).
Proof.
  rewrite (scalar_projection_identical_x_anchors 2 scenario_vectors
             [F32.of_Z 1; F32.zero] [F32.zero; F32.of_Z 1] [F32.zero; F32.of_Z (-1)]);
    try reflexivity.
  - lia.
  - repeat constructor.
Defined.

(** ** The order in which a session touches its files *)

(** X17. [evaluate_ideology_projection] opens the reference table first:
    if it cannot be opened the call raises [IOError] and the vector file is
    not touched; if the table reads and the vector file cannot be opened, the
    call raises [IOError] after the report of the missing scores has been
    printed. *)
Theorem evaluate_ideology_projection_opens_table_first
    (ext : externals) (cgrs_sess : Z) :
  (members_csv ext cgrs_sess = None ->
     forall vec_file,
       evaluate_ideology_projection ext vec_file cgrs_sess = (Raise IOError, []))
  /\ (forall table ideology names out,
        members_csv ext cgrs_sess = Some table ->
        read_dwnominate_csv (float32 ext) table = (Ok (ideology, names), out) ->
        evaluate_ideology_projection ext None cgrs_sess = (Raise IOError, out)).
Proof.
  split.
  - intros Hnone vec_file. unfold evaluate_ideology_projection. rewrite Hnone. reflexivity.
  - intros table ideology names out Htable Hcsv. unfold evaluate_ideology_projection.
    rewrite Htable. cbn [open]. rewrite bind_lift_ok, (bind_eq _ _ _ _ Hcsv).
    cbn. rewrite app_nil_r. reflexivity.
Qed.

Lemma evaluate_ideology_projection_opens_table_first_witness :
  evaluate_ideology_projection (checked_externals (fun _ => None)) (Some two_vector_file) 97
    = (Raise IOError, [])
  /\ evaluate_ideology_projection (checked_externals (every_session [smith_row])) None 97
       = (Raise IOError, [MissingScores ["SMITH, John"]]).
Proof.
  split.
  - apply (proj1 (evaluate_ideology_projection_opens_table_first
                    (checked_externals (fun _ => None)) 97)). reflexivity.
  - apply (proj2 (evaluate_ideology_projection_opens_table_first
                    (checked_externals (every_session [smith_row])) 97)
             [smith_row] [F32.zero] ["smith"]); reflexivity.
Defined.

(** ** The drivers, line by line *)

Lemma range_empty (start stop : Z) : stop <= start -> range start stop = [].
Proof.
  intros H. unfold range, seqZ.
  replace (Z.to_nat (stop - start)) with 0%nat by lia. reflexivity.
Qed.

(** X18. Over a range without a session [compare_among_years] evaluates
    nothing and goes straight to the averages of nothing: with
    [start = end] the integer division [0 / 0] raises [ZeroDivisionError]
    and nothing is printed; with [start > end] the two averages printed are
    the quotient of the integers 0 and [end - start]. *)
Theorem compare_among_years_empty_range
    (ext : externals) (vec_file : Z -> option file) (start stop : Z) :
  (stop = start ->
     compare_among_years ext vec_file start stop = (Raise ZeroDivisionError, []))
  /\ (stop < start ->
        compare_among_years ext vec_file start stop =
          (Ok tt,
           [AveragePearson (F64.div (F64.of_Z 0) (F64.of_Z (stop - start)));
            AverageSpearman (F64.div (F64.of_Z 0) (F64.of_Z (stop - start)))])).
Proof.
  split; intros H; unfold compare_among_years; rewrite range_empty by lia;
    cbn [compare_loop]; rewrite bind_ret; unfold print_averages, py_truediv.
  - subst. rewrite Z.sub_diag. reflexivity.
  - destruct (Z.eqb_spec (stop - start) 0); [lia|]. reflexivity.
Qed.

Lemma compare_among_years_empty_range_witness :
  compare_among_years (checked_externals five_cohort_tables) five_cohort_files 3 3
    = (Raise ZeroDivisionError, [])
  /\ compare_among_years (checked_externals five_cohort_tables) five_cohort_files 6 1
       = (Ok tt, [AveragePearson (S754_zero true); AverageSpearman (S754_zero true)]).
Proof.
  split.
  - apply (proj1 (compare_among_years_empty_range
                    (checked_externals five_cohort_tables) five_cohort_files 3 3)).
    reflexivity.
  - apply (proj2 (compare_among_years_empty_range
                    (checked_externals five_cohort_tables) five_cohort_files 6 1)).
    reflexivity.
Defined.

Section SessionsLoop.

Variable session : Z -> M (float * float).

Lemma sessions_loop_step (s : Z) (rest : list Z) (sp ss : pynum)
    (c : float * float) (messages : list event) :
  session s = (Ok c, messages) ->
  sessions_loop session (s :: rest) sp ss =
    (fst (sessions_loop session rest (py_add sp (fst c)) (py_add ss (snd c))),
     session_lines messages c ++
     snd (sessions_loop session rest (py_add sp (fst c)) (py_add ss (snd c)))).
Proof.
  intros Hs. cbn [sessions_loop]. rewrite (bind_eq _ _ _ _ Hs). destruct c as [p r].
  rewrite !bind_print. cbn [fst snd]. unfold session_lines.
  rewrite <- app_assoc. reflexivity.
Qed.

Lemma sessions_loop_trace (sessions : list Z) (coeffs : list (float * float))
    (sp ss : pynum) :
  Forall2 (fun s c => outcome (session s) = Ok c) sessions coeffs ->
  sessions_loop session sessions sp ss =
    (Ok (fold_left py_add (map fst coeffs) sp, fold_left py_add (map snd coeffs) ss),
     loop_trace session sessions coeffs).
Proof.
  intros H. revert sp ss. induction H as [|s c sessions coeffs Hs _ IH]; intros sp ss.
  - reflexivity.
  - destruct (session s) as [r messages] eqn:Hrun. cbn [outcome fst] in Hs. subst r.
    rewrite (sessions_loop_step _ _ _ _ _ _ Hrun), IH. unfold loop_trace.
    cbn [zip_with concat fst snd map fold_left]. rewrite Hrun. reflexivity.
Qed.

Lemma sessions_loop_first_failure (done : list Z) (s : Z) (rest : list Z)
    (coeffs : list (float * float)) (e : exn) (sp ss : pynum) :
  Forall2 (fun s c => outcome (session s) = Ok c) done coeffs ->
  outcome (session s) = Raise e ->
  sessions_loop session (done ++ s :: rest) sp ss =
    (Raise e, loop_trace session done coeffs ++ printed (session s)).
Proof.
  intros H Hs. revert sp ss. induction H as [|s' c done coeffs Hs' _ IH]; intros sp ss.
  - cbn [app sessions_loop]. destruct (session s) as [r messages].
    cbn [outcome fst] in Hs. subst r. reflexivity.
  - destruct (session s') as [r messages] eqn:Hrun. cbn [outcome fst] in Hs'. subst r.
    cbn [app]. rewrite (sessions_loop_step _ _ _ _ _ _ Hrun), IH. unfold loop_trace.
    cbn [zip_with concat fst snd]. rewrite Hrun. cbn [printed snd].
    rewrite <- app_assoc. reflexivity.
Qed.

End SessionsLoop.

Lemma compare_loop_sessions_loop (ext : externals) (vec_file : Z -> option file)
    (sessions : list Z) (sp ss : pynum) :
  compare_loop ext vec_file sessions sp ss =
  sessions_loop (fun s => evaluate_ideology_projection ext (vec_file s) s) sessions sp ss.
Proof.
  revert sp ss. induction sessions as [|s rest IH]; intros sp ss; [reflexivity|].
  cbn [compare_loop sessions_loop].
  destruct (evaluate_ideology_projection ext (vec_file s) s) as [[[p r]|e] out];
    [|reflexivity].
  rewrite !bind_ok. cbv beta iota. rewrite IH. reflexivity.
Qed.

Lemma dict_loop_sessions_loop (ext : externals) (vec_dict : gmap string (list float))
    (axis_vectors : list (list float)) (sessions : list Z) (sp ss : pynum) :
  dict_loop ext vec_dict axis_vectors sessions sp ss =
  sessions_loop (dict_session ext vec_dict axis_vectors) sessions sp ss.
Proof.
  revert sp ss. induction sessions as [|s rest IH]; intros sp ss; [reflexivity|].
  cbn [dict_loop sessions_loop].
  destruct (dict_session ext vec_dict axis_vectors s) as [[[p r]|e] out]; [|reflexivity].
  rewrite !bind_ok. cbv beta iota. rewrite IH. reflexivity.
Qed.

Lemma print_averages_lines (coeffs : list (float * float)) (start stop : Z) :
  stop - start <> 0 ->
  print_averages (sum_of (map fst coeffs)) (sum_of (map snd coeffs)) start stop =
    (Ok tt, average_lines coeffs start stop).
Proof.
  intros Hnz. unfold print_averages.
  rewrite !(py_truediv_nonzero _ _ Hnz), !bind_lift_ok, bind_print. reflexivity.
Qed.

(** X19. What [compare_among_years] prints, line by line. The sessions
    are taken in increasing order; each one that is evaluated leaves its own
    messages and then its two coefficients. If every session of a non-empty
    range is evaluated, the two averages close the output. If a session
    raises, the run raises the same exception at once: the output ends with
    the messages of that session, and no later session is opened. *)
Theorem compare_among_years_trace
    (ext : externals) (vec_file : Z -> option file) (start stop : Z) :
  (forall coeffs,
      start < stop ->
      Forall2 (evaluated ext vec_file) (range start stop) coeffs ->
      compare_among_years ext vec_file start stop =
        (Ok tt,
         file_trace ext vec_file (range start stop) coeffs
         ++ average_lines coeffs start stop))
  /\ (forall done s rest coeffs e,
        range start stop = done ++ s :: rest ->
        Forall2 (evaluated ext vec_file) done coeffs ->
        outcome (evaluate_ideology_projection ext (vec_file s) s) = Raise e ->
        compare_among_years ext vec_file start stop =
          (Raise e,
           file_trace ext vec_file done coeffs
           ++ printed (evaluate_ideology_projection ext (vec_file s) s))).
Proof.
  split.
  - intros coeffs Hlt Hall. unfold compare_among_years.
    rewrite compare_loop_sessions_loop.
    rewrite (sessions_loop_trace _ _ coeffs (PyInt 0) (PyInt 0) Hall), bind_ok.
    fold (sum_of (map fst coeffs)) (sum_of (map snd coeffs)).
    rewrite print_averages_lines by lia. reflexivity.
  - intros done s rest coeffs e Hrange Hall Hs. unfold compare_among_years.
    rewrite compare_loop_sessions_loop, Hrange.
    rewrite (sessions_loop_first_failure
               (fun s => evaluate_ideology_projection ext (vec_file s) s)
               done s rest coeffs e (PyInt 0) (PyInt 0) Hall Hs).
    reflexivity.
Qed.

Lemma compare_among_years_trace_witness :
  compare_among_years (checked_externals five_cohort_tables) five_cohort_files 1 6 =
    (Raise ValueError,
     file_trace (checked_externals five_cohort_tables) five_cohort_files [1; 2]
       [(one64, one64); (one64, one64)]
     ++ printed (evaluate_ideology_projection (checked_externals five_cohort_tables)
                   (five_cohort_files 3) 3)).
Proof.
  apply (proj2 (compare_among_years_trace
                  (checked_externals five_cohort_tables) five_cohort_files 1 6)
           [1; 2] 3 [4; 5] [(one64, one64); (one64, one64)] ValueError).
  - reflexivity.
  - repeat constructor; reflexivity.
  - reflexivity.
Defined.

(** ** The driver of the dictionary mode *)

Lemma getitem_axis (vec_dict : gmap string (list float)) :
  (exists a, In a axis /\ vec_dict !! a = None) ->
  map_result (getitem vec_dict) axis = Raise KeyError.
Proof.
  intros [a [Hin Ha]]. unfold axis in *. unfold map_result, getitem.
  destruct (vec_dict !! "conservative") eqn:H0;
    [|reflexivity].
  destruct (vec_dict !! "liberal") eqn:H1; [|reflexivity].
  destruct (vec_dict !! "good") eqn:H2; [|reflexivity].
  destruct (vec_dict !! "bad") eqn:H3; [|reflexivity].
  exfalso. simpl in Hin. destruct Hin as [<-|[<-|[<-|[<-|[]]]]]; congruence.
Qed.

(** X20. [dict_compare_among_years] looks the four anchor words up
    once, before any session: if one of 'conservative', 'liberal', 'good',
    'bad' is no key of the dictionary, the run raises [KeyError] with nothing
    read and nothing printed, whatever the range, the empty one included. *)
Theorem dict_compare_among_years_missing_anchor
    (ext : externals) (vec_dict : gmap string (list float)) (start stop : Z) :
  (exists a, In a axis /\ vec_dict !! a = None) ->
  dict_compare_among_years ext vec_dict start stop = (Raise KeyError, []).
Proof.
  intros H. unfold dict_compare_among_years. rewrite (getitem_axis vec_dict H). reflexivity.
Qed.

Lemma dict_compare_among_years_missing_anchor_witness :
  dict_compare_among_years (checked_externals five_cohort_tables)
    (delete "good" ab_dict) 3 3 = (Raise KeyError, []).
Proof.
  apply dict_compare_among_years_missing_anchor.
  exists "good". split; [right; right; left; reflexivity | reflexivity].
Defined.

(** X21. The dictionary mode divides as the file mode does. With the
    four anchors found and of one length, over a non-empty range whose
    sessions are all evaluated, [dict_compare_among_years] prints each
    session's messages and coefficients in order and closes with the two sums
    divided by [end - start]; with [start = end] it raises
    [ZeroDivisionError]; and a session that raises ends the run with its
    exception, no average printed. *)
Theorem dict_compare_among_years_trace
    (ext : externals) (vec_dict : gmap string (list float))
    (axis_vectors : list (list float)) (start stop : Z) :
  bind_result (map_result (getitem vec_dict) axis) np_matrix = Ok axis_vectors ->
  (forall coeffs,
      start < stop ->
      Forall2 (dict_evaluated ext vec_dict axis_vectors) (range start stop) coeffs ->
      dict_compare_among_years ext vec_dict start stop =
        (Ok tt,
         dict_trace ext vec_dict axis_vectors (range start stop) coeffs
         ++ average_lines coeffs start stop))
  /\ (stop = start ->
        dict_compare_among_years ext vec_dict start stop = (Raise ZeroDivisionError, []))
  /\ (forall done s rest coeffs e,
        range start stop = done ++ s :: rest ->
        Forall2 (dict_evaluated ext vec_dict axis_vectors) done coeffs ->
        outcome (dict_session ext vec_dict axis_vectors s) = Raise e ->
        dict_compare_among_years ext vec_dict start stop =
          (Raise e,
           dict_trace ext vec_dict axis_vectors done coeffs
           ++ printed (dict_session ext vec_dict axis_vectors s))).
Proof.
  intros Haxis. unfold dict_compare_among_years. rewrite Haxis, bind_lift_ok.
  split; [|split].
  - intros coeffs Hlt Hall. rewrite dict_loop_sessions_loop.
    rewrite (sessions_loop_trace _ _ coeffs (PyInt 0) (PyInt 0) Hall), bind_ok.
    fold (sum_of (map fst coeffs)) (sum_of (map snd coeffs)).
    rewrite print_averages_lines by lia. reflexivity.
  - intros ->. rewrite range_empty by lia. cbn [dict_loop]. rewrite bind_ret.
    unfold print_averages, py_truediv. rewrite Z.sub_diag. reflexivity.
  - intros done s rest coeffs e Hrange Hall Hs.
    rewrite dict_loop_sessions_loop, Hrange.
    rewrite (sessions_loop_first_failure (dict_session ext vec_dict axis_vectors)
               done s rest coeffs e (PyInt 0) (PyInt 0) Hall Hs).
    reflexivity.
Qed.

Lemma dict_compare_among_years_trace_witness :
  dict_compare_among_years (checked_externals (every_session abd_table)) ab_dict 97 99 =
    (Ok tt,
     [SessionMissing 97 ["dave"]; PrintPearson one64; PrintSpearman one64;
      SessionMissing 98 ["dave"]; PrintPearson one64; PrintSpearman one64;
      AveragePearson one64; AverageSpearman one64]).
Proof.
  rewrite (proj1 (dict_compare_among_years_trace
                    (checked_externals (every_session abd_table)) ab_dict
                    scenario_anchors 97 99 eq_refl)
             [(one64, one64); (one64, one64)]).
  - reflexivity.
  - reflexivity.
  - change (range 97 99) with [97; 98]. repeat constructor; reflexivity.
Defined.

(** ** The query file *)

Lemma has_char_lstrip (c : ascii) (s : string) :
  has_char c (Text.lstrip s) = true -> has_char c s = true.
Proof.
  induction s as [|x s IH]; [discriminate|]. simpl.
  destruct (Text.is_space x); [|intros H; exact H].
  intros H. rewrite (IH H). apply orb_true_r.
Qed.

Lemma has_char_rstrip (c : ascii) (s : string) :
  has_char c (Text.rstrip s) = true -> has_char c s = true.
Proof.
  induction s as [|x s IH]; [discriminate|]. simpl.
  destruct (Text.rstrip s) as [|y t].
  - destruct (Text.is_space x); [discriminate|]. simpl.
    rewrite orb_false_r. intros ->. reflexivity.
  - simpl in *. intros H. apply orb_true_iff in H. destruct H as [->|H]; [reflexivity|].
    rewrite (IH H). apply orb_true_r.
Qed.

Lemma rstrip_rstrip (s : string) : Text.rstrip (Text.rstrip s) = Text.rstrip s.
Proof.
  induction s as [|x s IH]; [reflexivity|]. simpl.
  destruct (Text.rstrip s) as [|y t] eqn:Hr.
  - destruct (Text.is_space x) eqn:Hx; [reflexivity|]. simpl. rewrite Hx. reflexivity.
  - simpl Text.rstrip at 1. simpl in IH. rewrite IH. reflexivity.
Qed.

Lemma lstrip_head (s : string) :
  Text.lstrip s = EmptyString
  \/ exists x t, Text.lstrip s = String x t /\ Text.is_space x = false.
Proof.
  induction s as [|x s IH]; [left; reflexivity|]. simpl.
  destruct (Text.is_space x) eqn:Hx; [exact IH|].
  right. exists x, s. split; [reflexivity | exact Hx].
Qed.

Lemma strip_strip (s : string) : Text.strip (Text.strip s) = Text.strip s.
Proof.
  unfold Text.strip.
  assert (Hl : Text.lstrip (Text.rstrip (Text.lstrip s)) = Text.rstrip (Text.lstrip s)).
  { destruct (lstrip_head s) as [-> | [x [t [-> Hx]]]]; [reflexivity|].
    simpl. destruct (Text.rstrip t); rewrite ?Hx; simpl; rewrite Hx; reflexivity. }
  rewrite Hl. apply rstrip_rstrip.
Qed.

(** X22. The queries [project_queries] reads from its file: none holds a
    ['#'], each is stripped of white space at both ends, and there are no
    more of them than lines. *)
Theorem read_queries_clean (f : file) :
  Forall (fun q => has_char hash q = false /\ Text.strip q = q) (read_queries f)
  /\ (length (read_queries f) <= length f)%nat.
Proof.
  unfold read_queries. split.
  - apply List.Forall_forall. intros q Hq. apply in_map_iff in Hq.
    destruct Hq as [w [<- Hw]]. apply filter_In in Hw. destruct Hw as [_ Hw].
    apply negb_true_iff, orb_false_iff in Hw. destruct Hw as [_ Hhash].
    split; [|apply strip_strip].
    destruct (has_char hash (Text.strip w)) eqn:H; [|reflexivity].
    apply has_char_rstrip, has_char_lstrip in H. congruence.
  - rewrite length_map. apply filter_length_le.
Qed.

Lemma lstrip_all_space (w : string) : all_space w -> Text.lstrip w = EmptyString.
Proof.
  unfold all_space. induction w as [|x w IH]; [reflexivity|]. simpl.
  intros H. apply Forall_cons in H. destruct H as [-> H]. apply IH. exact H.
Qed.

Lemma has_char_all_space (w : string) : all_space w -> has_char hash w = false.
Proof.
  unfold all_space. induction w as [|x w IH]; [reflexivity|]. simpl.
  intros H. apply Forall_cons in H. destruct H as [Hx H]. rewrite (IH H), orb_false_r.
  destruct (Ascii.eqb_spec x hash) as [->|_]; [discriminate Hx | reflexivity].
Qed.

(** X23. Only the bare line feed counts as an empty line. Any other line
    of white space, a line feed after a space or a carriage return for one,
    is kept and becomes the empty query. *)
Theorem read_queries_keeps_white_lines (f : file) (w : string) :
  In w f -> all_space w -> w <> String Text.newline EmptyString ->
  In EmptyString (read_queries f).
Proof.
  intros Hin Hspace Hne. unfold read_queries. apply in_map_iff. exists w. split.
  - unfold Text.strip. rewrite (lstrip_all_space w Hspace). reflexivity.
  - apply filter_In. split; [exact Hin|]. unfold skipped.
    rewrite (has_char_all_space w Hspace), orb_false_r.
    apply negb_true_iff, String.eqb_neq. exact Hne.
Qed.

Lemma read_queries_keeps_white_lines_witness :
  In EmptyString (read_queries ["tax cuts
"; " 
"; "# a comment
"; "
"]).
Proof.
  apply (read_queries_keeps_white_lines _ " 
").
  - right. left. reflexivity.
  - repeat constructor.
  - discriminate.
Defined.

(** X24. A query file that holds nothing but comments and bare line
    feeds leaves no query, and [project_queries] does not draw an empty plot:
    with the four anchor words known to the model and the vector of
    'conservative' not empty, it raises [ValueError] and never calls the
    plot. *)
Theorem project_queries_no_query
    (plot : ndarray -> ndarray -> list string -> result unit)
    (pretrained_model : string -> option (list float)) (f : file)
    (a0 a1 a2 a3 : list float) :
  Forall (fun w => skipped w = true) f ->
  pretrained_model "conservative" = Some a0 ->
  pretrained_model "liberal" = Some a1 ->
  pretrained_model "good" = Some a2 ->
  pretrained_model "bad" = Some a3 ->
  a0 <> [] ->
  project_queries plot pretrained_model (Some f) = Raise ValueError.
Proof.
  intros Hskip H0 H1 H2 H3 Hne. unfold project_queries. cbn [open bind_result].
  assert (Hq : read_queries f = []).
  { unfold read_queries. induction Hskip as [|w f Hw _ IH]; [reflexivity|].
    simpl. rewrite Hw. exact IH. }
  rewrite Hq. unfold query_fasttext_wrapper, axis.
  cbn [map_result bind_result np_asarray]. unfold model_getitem.
  rewrite H0, H1, H2, H3. cbn [bind_result].
  destruct (np_matrix [a0; a1; a2; a3]) as [rows|e] eqn:Hm; cbn [bind_result].
  - unfold np_matrix in Hm.
    destruct (np_asarray [a0; a1; a2; a3]) as [a|] eqn:Ha; [|discriminate].
    injection Hm as <-. apply np_asarray_ok in Ha.
    destruct Ha as [[Ha _] | [cols [_ [_ Hall]]]]; [discriminate|].
    apply Forall_cons in Hall. destruct Hall as [Hl0 Hall].
    apply Forall_cons in Hall. destruct Hall as [Hl1 _].
    rewrite (proj1 (scalar_projection_no_vectors a0 a1 a2 a3 ltac:(congruence) Hne)).
    reflexivity.
  - unfold np_matrix in Hm.
    destruct (np_asarray [a0; a1; a2; a3]) as [a|e'] eqn:Ha; [discriminate|].
    injection Hm as <-. simpl in Ha.
    match type of Ha with (if ?b then _ else _) = _ => destruct b end;
      inversion Ha. reflexivity.
Qed.

Lemma project_queries_no_query_witness :
  project_queries (fun _ _ _ => Ok tt) (fun w => ab_dict !! w)
    (Some ["# all of it is commented out
"; "
"]) = Raise ValueError.
Proof.
  apply (project_queries_no_query _ _ _ [F32.of_Z 1; F32.zero] [F32.of_Z (-1); F32.zero]
           [F32.zero; F32.of_Z 1] [F32.zero; F32.of_Z (-1)]);
    try reflexivity; [repeat constructor | discriminate].
Defined.

(** X25. The anchors must agree in length before any session is read:
    when the four anchor words are keys but two of their vectors differ in
    length, as [read_vec_file_as_dict] lets them, [dict_compare_among_years]
    raises [ValueError] with nothing read and nothing printed. *)
Theorem dict_compare_among_years_ragged_anchors
    (ext : externals) (vec_dict : gmap string (list float)) (start stop : Z)
    (rows : list (list float)) (r1 r2 : list float) :
  map_result (getitem vec_dict) axis = Ok rows ->
  In r1 rows -> In r2 rows -> length r1 <> length r2 ->
  dict_compare_among_years ext vec_dict start stop = (Raise ValueError, []).
Proof.
  intros Hrows H1 H2 Hne. unfold dict_compare_among_years. rewrite Hrows.
  cbn [bind_result]. unfold np_matrix.
  rewrite (np_asarray_ragged rows r1 r2 H1 H2 Hne). reflexivity.
Qed.

Lemma dict_compare_among_years_ragged_anchors_witness :
  dict_compare_among_years (checked_externals (every_session abd_table))
    ragged_anchor_dict 97 98 = (Raise ValueError, []).
Proof.
  apply (dict_compare_among_years_ragged_anchors _ ragged_anchor_dict 97 98
           [[F32.of_Z 1; F32.zero]; [F32.of_Z (-1); F32.zero]; [F32.zero; F32.of_Z 1];
            [F32.zero; F32.of_Z (-1); F32.zero]]
           [F32.of_Z 1; F32.zero] [F32.zero; F32.of_Z (-1); F32.zero] eq_refl).
  - left. reflexivity.
  - right. right. right. left. reflexivity.
  - simpl. lia.
Defined.

(** X26. A plot that fails is treated differently in the two modes. In
    the file mode a [ValueError] of the plot is reported as a failure to
    graph and the session goes on to the correlation; any other exception of
    the plot ends the session. In the dictionary mode every exception of the
    plot, [ValueError] included, ends the session, and nothing is reported. *)
Theorem plot_failure_by_mode (ext : externals) :
  (forall f cgrs_sess table ideology names out vectors axis_vectors labels x_proj y_proj e,
      members_csv ext cgrs_sess = Some table ->
      read_dwnominate_csv (float32 ext) table = (Ok (ideology, names), out) ->
      read_vec_file_with_axes (float32 ext) f = (Ok (vectors, axis_vectors, labels), []) ->
      scalar_projection (Array vectors) axis_vectors = Ok (x_proj, y_proj) ->
      scatter_plot ext x_proj ideology names = Raise e ->
      evaluate_ideology_projection ext (Some f) cgrs_sess =
        match e with
        | ValueError => (correlate ext x_proj ideology, out ++ [FailedToGraph cgrs_sess])
        | _ => (Raise e, out)
        end)
  /\ (forall vec_dict axis_vectors cgrs_sess table ideology senators out x_proj y_proj e,
        members_csv ext cgrs_sess = Some table ->
        read_dwnominate_csv (float32 ext) table = (Ok (ideology, senators), out) ->
        let kept := retained vec_dict senators ideology in
        scalar_projection (PyList (map vector_of kept)) axis_vectors = Ok (x_proj, y_proj) ->
        scatter_plot ext x_proj (map score_of kept) (map name_of kept) = Raise e ->
        dict_session ext vec_dict axis_vectors cgrs_sess =
          (Raise e, out ++ report_missing cgrs_sess (absent vec_dict senators))).
Proof.
  split.
  - intros f cgrs_sess table ideology names out vectors axis_vectors labels x_proj y_proj e
      Htable Hcsv Hfile Hproj Hplot.
    rewrite (evaluate_ideology_projection_steps ext f cgrs_sess table ideology names out
               vectors axis_vectors labels x_proj y_proj Htable Hcsv Hfile Hproj).
    rewrite Hplot. destruct e; reflexivity.
  - intros vec_dict axis_vectors cgrs_sess table ideology senators out x_proj y_proj e
      Htable Hcsv kept Hproj Hplot.
    rewrite (dict_session_steps ext vec_dict axis_vectors cgrs_sess table ideology senators
               out Htable Hcsv).
    cbv zeta. fold kept. rewrite Hproj, Hplot. reflexivity.
Qed.

Lemma plot_failure_by_mode_witness :
  evaluate_ideology_projection
    (externals_with (plot_raising ValueError) (coefficient_checked one64)
       (coefficient_checked one64) (every_session two_row_table))
    (Some two_vector_file) 97 = (Ok (one64, one64), [FailedToGraph 97])
  /\ dict_session
       (externals_with (plot_raising ValueError) (coefficient_checked one64)
          (coefficient_checked one64) (every_session abd_table))
       ab_dict scenario_anchors 97 = (Raise ValueError, [SessionMissing 97 ["dave"]]).
Proof.
  split.
  - rewrite (proj1 (plot_failure_by_mode
                      (externals_with (plot_raising ValueError) (coefficient_checked one64)
                         (coefficient_checked one64) (every_session two_row_table)))
               two_vector_file 97 two_row_table
               [F32.of_Z 1; F32.of_Z (-1)] ["alice"; "bob"] []
               (Mat 2 [[F32.of_Z 1; F32.zero]; [F32.of_Z (-1); F32.zero]])
               scenario_anchors ["alice"; "bob"]
               (Vec [F32.of_Z 1; F32.of_Z (-1)]) (Vec [F32.zero; F32.zero]) ValueError
               eq_refl eq_refl eq_refl eq_refl eq_refl).
    reflexivity.
  - rewrite (proj2 (plot_failure_by_mode
                      (externals_with (plot_raising ValueError) (coefficient_checked one64)
                         (coefficient_checked one64) (every_session abd_table)))
               ab_dict scenario_anchors 97 abd_table
               [F32.of_Z 1; F32.of_Z (-1); F32.of_Z 1] ["alice"; "bob"; "dave"] []
               (Vec [F32.of_Z 1; F32.zero]) (Vec [F32.zero; F32.of_Z 1]) ValueError
               eq_refl eq_refl eq_refl eq_refl).
    reflexivity.
Defined.
